(** * ADB file explorer: the text parsing, transfer worker and navigation
      of [Adb.py] and [main.py]

    Both programs shell out to [adb], parse its plain-text output and keep a
    current remote path.  This development embeds the string primitives of
    Python that the two files use, the transfer worker of [Adb.py] as a
    function from the results of its external calls to the signals it
    emits, and the handlers that change the device, the listing, the
    running workers and the current path. *)

From Stdlib Require Import ZArith NArith List String Ascii Bool Lia.
From Stdlib Require Import Numbers.DecimalString.
Import ListNotations.

Local Open Scope string_scope.
Local Open Scope Z_scope.

(* ===================================================================== *)
(** * Python strings

    A [str] is modelled by [string]; a character is its code point, for the
    code points below 256. *)
(* ===================================================================== *)

Module Py.

Definition TAB : ascii := "009"%char.
Definition LF : ascii := "010"%char.
Definition CR : ascii := "013"%char.
Definition SLASH : ascii := "/"%char.
Definition BACKSLASH : ascii := "\"%char.

Definition chr (c : ascii) : string := String c EmptyString.

Definition code (c : ascii) : N := N_of_ascii c.

(** [c.isspace()]: the characters [str.strip()] and [str.split()] treat as
    white space. *)
Definition isspace (c : ascii) : bool :=
  let n := code c in
  ((9 <=? n) && (n <=? 13) || (28 <=? n) && (n <=? 32)
   || (n =? 133) || (n =? 160))%N.

(** The line boundaries of [str.splitlines()]. *)
Definition islinebreak (c : ascii) : bool :=
  let n := code c in
  ((10 <=? n) && (n <=? 13) || (28 <=? n) && (n <=? 30) || (n =? 133))%N.

(** The characters the regular expression class [\d] and [int()] accept. *)
Definition isdigit (c : ascii) : bool :=
  let n := code c in ((48 <=? n) && (n <=? 57))%N.

Definition digit_value (c : ascii) : Z := Z.of_N (code c) - 48.

Fixpoint string_forall (p : ascii -> bool) (s : string) : bool :=
  match s with
  | EmptyString => true
  | String c s' => p c && string_forall p s'
  end.

Definition nonempty (s : string) : bool :=
  match s with EmptyString => false | String _ _ => true end.

(** [s.lstrip(chars)], [s.rstrip(chars)] and [s.strip(chars)], the set of
    characters given as a predicate. *)
Fixpoint lstrip_by (p : ascii -> bool) (s : string) : string :=
  match s with
  | EmptyString => EmptyString
  | String c s' => if p c then lstrip_by p s' else s
  end.

Fixpoint rstrip_by (p : ascii -> bool) (s : string) : string :=
  match s with
  | EmptyString => EmptyString
  | String c s' =>
      match rstrip_by p s' with
      | EmptyString => if p c then EmptyString else chr c
      | r => String c r
      end
  end.

Definition strip (s : string) : string := lstrip_by isspace (rstrip_by isspace s).

(** [s.rstrip(c)] and [s.endswith(c)] for a one-character [c]. *)
Definition rstrip_char (ch : ascii) (s : string) : string :=
  rstrip_by (Ascii.eqb ch) s.

Fixpoint endswith_char (ch : ascii) (s : string) : bool :=
  match s with
  | EmptyString => false
  | String c EmptyString => Ascii.eqb c ch
  | String _ s' => endswith_char ch s'
  end.

(** [s.split(sep)] for a one-character separator: never an empty list. *)
Fixpoint split (sep : ascii) (s : string) : list string :=
  match s with
  | EmptyString => [EmptyString]
  | String c s' =>
      if Ascii.eqb c sep then EmptyString :: split sep s'
      else match split sep s' with
           | [] => [chr c]
           | w :: ws => String c w :: ws
           end
  end.

(** [sep.join(parts)]. *)
Fixpoint join (sep : string) (parts : list string) : string :=
  match parts with
  | [] => EmptyString
  | [w] => w
  | w :: ws => w ++ sep ++ join sep ws
  end.

(** [s.splitlines()]: a carriage return followed by a line feed is one
    boundary, and a final boundary opens no empty last line. *)
Fixpoint splitlines (s : string) : list string :=
  match s with
  | EmptyString => []
  | String c s' =>
      if islinebreak c then
        match s' with
        | String c' s'' =>
            if Ascii.eqb c CR && Ascii.eqb c' LF
            then EmptyString :: splitlines s''
            else EmptyString :: splitlines s'
        | EmptyString => [EmptyString]
        end
      else match splitlines s' with
           | [] => [chr c]
           | w :: ws => String c w :: ws
           end
  end.

(** [s.split()]: the maximal runs of characters that are not white space. *)
Fixpoint split_ws (s : string) : list string :=
  match s with
  | EmptyString => []
  | String c s' =>
      if isspace c then split_ws s'
      else match s' with
           | EmptyString => [chr c]
           | String c' _ =>
               if isspace c' then chr c :: split_ws s'
               else match split_ws s' with
                    | [] => [chr c]
                    | w :: ws => String c w :: ws
                    end
           end
  end.

(** [needle in hay]. *)
Fixpoint contains (needle hay : string) : bool :=
  prefix needle hay
  || match hay with
     | EmptyString => false
     | String _ hay' => contains needle hay'
     end.

(** [s.replace(a, b)] for one-character [a] and [b]. *)
Fixpoint replace_char (a b : ascii) (s : string) : string :=
  match s with
  | EmptyString => EmptyString
  | String c s' => String (if Ascii.eqb c a then b else c) (replace_char a b s')
  end.

(** [l[:-1]]. *)
Definition init {A : Type} (l : list A) : list A := removelast l.

(** [str(n)] for an integer. *)
Definition str_int (n : Z) : string := NilZero.string_of_int (Z.to_int n).

(** ** [int(s)]

    The literal is stripped of white space, may carry one sign, and is a
    run of digits in which single underscores may separate digits. *)
Fixpoint int_digits (acc : Z) (after_digit : bool) (s : string) : option Z :=
  match s with
  | EmptyString => if after_digit then Some acc else None
  | String c s' =>
      if Ascii.eqb c "_"%char then
        if after_digit then int_digits acc false s' else None
      else if isdigit c then int_digits (10 * acc + digit_value c) true s'
      else None
  end.

Definition int_literal (s : string) : option Z :=
  match strip s with
  | EmptyString => None
  | String c r =>
      if Ascii.eqb c "+"%char then int_digits 0 false r
      else if Ascii.eqb c "-"%char then option_map Z.opp (int_digits 0 false r)
      else int_digits 0 false (String c r)
  end.

(** ** [re.search(r'(\d+)%', s)]

    The search tries the start positions from the left.  At a position the
    greedy [\d+] takes the whole run of digits there; giving digits back
    cannot help, because the character after a shorter run is a digit and
    not the percent sign.  So the match at a position exists exactly when
    the run is not empty and a percent sign follows it, and group 1 is the
    run. *)
Fixpoint span_digits (s : string) : string * string :=
  match s with
  | EmptyString => (EmptyString, EmptyString)
  | String c s' =>
      if isdigit c then let (ds, rest) := span_digits s' in (String c ds, rest)
      else (EmptyString, s)
  end.

Definition match_percent_here (s : string) : option string :=
  match span_digits s with
  | (String d ds, String c _) =>
      if Ascii.eqb c "%"%char then Some (String d ds) else None
  | _ => None
  end.

Fixpoint search_percent (s : string) : option string :=
  match s with
  | EmptyString => None
  | String _ s' =>
      match match_percent_here s with
      | Some g => Some g
      | None => search_percent s'
      end
  end.

(** ** [os.path], as [posixpath] defines it

    Remote paths are POSIX paths; [Adb.py] turns every backslash of a
    joined path into a slash. *)
Fixpoint has_char (ch : ascii) (s : string) : bool :=
  match s with
  | EmptyString => false
  | String c s' => Ascii.eqb c ch || has_char ch s'
  end.

Fixpoint all_char (ch : ascii) (s : string) : bool :=
  match s with
  | EmptyString => true
  | String c s' => Ascii.eqb c ch && all_char ch s'
  end.

(** [(p[:i], p[i:])] for [i = p.rfind('/') + 1]. *)
Fixpoint rsplit_sep (p : string) : string * string :=
  match p with
  | EmptyString => (EmptyString, EmptyString)
  | String c p' =>
      if has_char SLASH p' then let (h, t) := rsplit_sep p' in (String c h, t)
      else if Ascii.eqb c SLASH then (chr c, p')
      else (EmptyString, p)
  end.

Definition dirname (p : string) : string :=
  let head := fst (rsplit_sep p) in
  if nonempty head && negb (all_char SLASH head)
  then rstrip_char SLASH head
  else head.

Definition basename (p : string) : string := snd (rsplit_sep p).

(** [os.path.join(a, b)]. *)
Definition path_join (a b : string) : string :=
  if prefix "/" b then b
  else if negb (nonempty a) || endswith_char SLASH a then a ++ b
  else a ++ "/" ++ b.

(** ** Exceptions

    [outcome A] is the result of a call that returns an [A] or raises. *)
Inductive exn : Type :=
| OSError (text : string)
| CalledProcessError (returncode : Z)
| ValueError (literal : string)
| RuntimeError (text : string).

Inductive outcome (A : Type) : Type :=
| Returned (a : A)
| Raised (e : exn).
Arguments Returned {A} a.
Arguments Raised {A} e.

(** A text shown or signalled: a literal, or a literal followed by
    [str(e)] of a caught exception. *)
Inductive message : Type :=
| Text (s : string)
| WithExn (prefix : string) (e : exn).

(** The result of [subprocess.run(..., capture_output=True, text=True)]. *)
Record CompletedProcess : Type := {
  returncode : Z;
  stdout : string;
  stderr : string
}.

End Py.

(* ===================================================================== *)
(** * [Adb.py] *)
(* ===================================================================== *)

Module Adb.
Import Py.

(** ** class [TransferWorker] *)
Module TransferWorker.

(** What a worker does that the rest of the program can see: the two
    signals it emits and the two [adb] processes it launches ([Run]: the
    remote [stat] of line 33; [Popen]: the push or pull of line 42).  The
    status text of the [progress] signal is a rendering of floating-point
    numbers and is left out of the event. *)
Inductive event : Type :=
| Run
| Popen
| Progress (percent : Z)
| Finished (success : bool) (msg : message).

(** A computation that emits events and returns or raises. *)
Definition M (A : Type) : Type := (list event * outcome A)%type.

Definition ret {A : Type} (a : A) : M A := ([], Returned a).

Definition bind {A B : Type} (m : M A) (k : A -> M B) : M B :=
  match m with
  | (tr, Returned a) => let (tr', r) := k a in ((tr ++ tr')%list, r)
  | (tr, Raised e) => (tr, Raised e)
  end.

Definition emit (ev : event) : M unit := ([ev], Returned tt).

Definition call {A : Type} (r : outcome A) : M A := ([], r).

Definition try_except {A : Type} (body : M A) (handler : exn -> M A) : M A :=
  match body with
  | (tr, Raised e) => let (tr', r) := handler e in ((tr ++ tr')%list, r)
  | done => done
  end.

Notation "x <- m ;; k" := (bind m (fun x => k))
  (at level 61, m at next level, right associativity).
Notation "m ;;; k" := (bind m (fun _ => k))
  (at level 61, right associativity).

(** The transfer process of line 42: what the calls of [readline] give, in
    order (after them, the empty string of the end of the stream), and the
    exit code [wait] collects. *)
Record Process : Type := {
  readline : list (outcome string);
  wait : Z
}.

(** Everything outside the worker that its run depends on: the results of
    its calls to the operating system, and the two places where the
    interpreter may refuse a value ([int] on a literal beyond the length
    it converts; the floating-point division of lines 57 and 58 and the
    [int] argument of the signal of line 60 on a number beyond their
    range). *)
Record world : Type := {
  getsize : outcome Z;
  stat : outcome CompletedProcess;
  popen : outcome Process;
  int_refuses : string -> bool;
  report_refuses : Z -> Z -> option exn
}.

Record worker : Type := {
  adb_path : string;
  device_id : option string;
  operation : string;
  src : string;
  dst : string
}.

(** [int(s)] in a world. *)
Definition int (w : world) (s : string) : outcome Z :=
  if int_refuses w s then Raised (ValueError s)
  else match int_literal s with
       | Some n => Returned n
       | None => Raised (ValueError s)
       end.

(** Lines 57 to 60 for a matched percent. *)
Definition report (w : world) (percent total_size : Z) : M unit :=
  match report_refuses w percent total_size with
  | Some e => call (Raised e)
  | None => emit (Progress percent)
  end.

(** One turn of the loop of line 45, lines 46 to 60. *)
Definition read_line (w : world) (total_size : Z) (raw : string) : M unit :=
  let line := strip raw in
  match search_percent line with
  | Some group1 =>
      percent <- call (int w group1) ;;
      report w percent total_size
  | None => ret tt
  end.

(** The loop of line 45: it ends when [readline] gives the empty string. *)
Fixpoint read_lines (w : world) (total_size : Z) (reads : list (outcome string))
  : M unit :=
  match reads with
  | [] => ret tt
  | r :: rest =>
      raw <- call r ;;
      if nonempty raw then
        read_line w total_size raw ;;;
        read_lines w total_size rest
      else ret tt
  end.

(** Lines 41 to 66. *)
Definition transfer (self : worker) (w : world) (total_size : Z) : M unit :=
  process <- call (popen w) ;;
  emit Popen ;;;
  read_lines w total_size (readline process) ;;;
  if wait process =? 0
  then emit (Finished true (Text "Transfer completed successfully."))
  else emit (Finished false
               (Text ("Transfer failed with exit code " ++ str_int (wait process)))).

(** Lines 28 to 38: the total size, or [None] when line 38 returns. *)
Definition total_size (self : worker) (w : world) : M (option Z) :=
  if (operation self =? "push")%string then
    size <- call (getsize w) ;;
    ret (Some size)
  else if (operation self =? "pull")%string then
    result <- call (stat w) ;;
    emit Run ;;;
    if returncode result =? 0 then
      size <- call (int w (strip (stdout result))) ;;
      ret (Some size)
    else
      emit (Finished false (Text ("Failed to get file size: " ++ stderr result))) ;;;
      ret None
  else
    ret (Some 0).

(** Lines 28 to 66, the body of the [try]. *)
Definition run_body (self : worker) (w : world) : M unit :=
  size <- total_size self w ;;
  match size with
  | Some size => transfer self w size
  | None => ret tt
  end.

Definition run_M (self : worker) (w : world) : M unit :=
  try_except (run_body self w) (fun e => emit (Finished false (WithExn "" e))).

(** [run]: the events of one run of the worker. *)
Definition run (self : worker) (w : world) : list event :=
  fst (run_M self w).

(** The percent values of the [progress] signals in a trace, in order. *)
Fixpoint percents (tr : list event) : list Z :=
  match tr with
  | [] => []
  | Progress p :: tr' => p :: percents tr'
  | _ :: tr' => percents tr'
  end.

Definition is_terminal (ev : event) : bool :=
  match ev with Finished _ _ => true | _ => false end.

End TransferWorker.

(** ** class [AdbFileExplorer] *)
Module AdbFileExplorer.

(** A [QListWidgetItem] of the file list: its text and its [UserRole]
    datum. *)
Record list_item : Type := {
  text : string;
  is_dir : bool
}.

(** A [QTreeWidgetItem]: its label and the path stored as [UserRole]
    datum. *)
Record tree_item : Type := {
  label : string;
  data : string
}.

(** A worker thread that was started, with its [isRunning()]. *)
Record thread : Type := {
  task : TransferWorker.worker;
  running : bool
}.

(** The window: the fields of [__init__] and the widgets the handlers
    write, the message boxes shown so far, and every worker thread
    started so far ([transfer_worker] is an index into them). *)
Record window : Type := {
  adb_path : string;
  device_id : option string;
  current_path : string;
  transfer_worker : option nat;
  threads : list thread;
  status_label : message;
  tree_widget : list tree_item;
  file_list : list list_item;
  push_button : bool;
  pull_button : bool;
  progress_bar : Z;
  progress_label : message;
  warnings : list message
}.

Definition ROOT : string := "/sdcard".

Definition set_device (d : option string) (lbl : message) (self : window) : window :=
  {| adb_path := adb_path self; device_id := d;
     current_path := current_path self;
     transfer_worker := transfer_worker self; threads := threads self;
     status_label := lbl; tree_widget := tree_widget self;
     file_list := file_list self; push_button := push_button self;
     pull_button := pull_button self; progress_bar := progress_bar self;
     progress_label := progress_label self; warnings := warnings self |}.

Definition set_current_path (p : string) (self : window) : window :=
  {| adb_path := adb_path self; device_id := device_id self;
     current_path := p;
     transfer_worker := transfer_worker self; threads := threads self;
     status_label := status_label self; tree_widget := tree_widget self;
     file_list := file_list self; push_button := push_button self;
     pull_button := pull_button self; progress_bar := progress_bar self;
     progress_label := progress_label self; warnings := warnings self |}.

Definition set_views (tree : list tree_item) (files : list list_item)
    (self : window) : window :=
  {| adb_path := adb_path self; device_id := device_id self;
     current_path := current_path self;
     transfer_worker := transfer_worker self; threads := threads self;
     status_label := status_label self; tree_widget := tree;
     file_list := files; push_button := push_button self;
     pull_button := pull_button self; progress_bar := progress_bar self;
     progress_label := progress_label self; warnings := warnings self |}.

Definition warn (m : message) (self : window) : window :=
  {| adb_path := adb_path self; device_id := device_id self;
     current_path := current_path self;
     transfer_worker := transfer_worker self; threads := threads self;
     status_label := status_label self; tree_widget := tree_widget self;
     file_list := file_list self; push_button := push_button self;
     pull_button := pull_button self; progress_bar := progress_bar self;
     progress_label := progress_label self;
     warnings := (warnings self ++ [m])%list |}.

Definition set_transfer (tw : option nat) (ths : list thread)
    (push pull : bool) (bar : Z) (lbl : message) (self : window) : window :=
  {| adb_path := adb_path self; device_id := device_id self;
     current_path := current_path self;
     transfer_worker := tw; threads := ths;
     status_label := status_label self; tree_widget := tree_widget self;
     file_list := file_list self; push_button := push;
     pull_button := pull; progress_bar := bar;
     progress_label := lbl; warnings := warnings self |}.

(** *** [check_device], lines 162 to 177 *)

(** Lines 168 and 169: the device list read off the output of
    [adb devices]. *)
Definition devices (out : string) : list string :=
  let lines := tl (split LF (strip out)) in
  map (fun line => hd EmptyString (split TAB line))
      (filter (fun line => nonempty (strip line) && contains "device" line)
              lines).

Definition check_device (self : window) (adb_exists : bool)
    (result : outcome CompletedProcess) : window :=
  if negb adb_exists then set_device (device_id self) (Text "ADB not found") self
  else
    match result with
    | Returned r =>
        match devices (stdout r) with
        | d :: _ => set_device (Some d) (Text ("Device: " ++ d)) self
        | [] => set_device None (Text "Device: Not connected") self
        end
    | Raised e =>
        set_device (device_id self) (WithExn "Error checking device: " e) self
    end.

(** *** [refresh_file_list] and [populate_tree_item], lines 179 to 222 *)

(** Lines 195 to 205: the items of a listing. *)
Definition list_items (out : string) : list list_item :=
  map (fun item => {| text := rstrip_char SLASH item;
                      is_dir := endswith_char SLASH item |})
      (filter nonempty (split LF (strip out))).

(** Lines 215 to 220: the children of the tree item of [path]. *)
Definition tree_children (path out : string) : list tree_item :=
  map (fun sub_item =>
         let name := rstrip_char SLASH sub_item in
         {| label := name;
            data := replace_char BACKSLASH SLASH (path_join path name) |})
      (filter (fun sub_item => nonempty sub_item && endswith_char SLASH sub_item)
              (split LF (strip out))).

Definition populate_tree_item (path : string)
    (result : outcome CompletedProcess) : list tree_item :=
  match result with
  | Returned r => if returncode r =? 0 then tree_children path (stdout r) else []
  | Raised _ => []
  end.

Definition truthy (d : option string) : bool :=
  match d with Some s => nonempty s | None => false end.

(** The two listings a refresh asks the device for: of the root, for the
    tree, and of the current path, for the file list. *)
Record listings : Type := {
  ls_root : outcome CompletedProcess;
  ls_current : outcome CompletedProcess
}.

(** The body of the [try] of line 192. *)
Definition list_current (self : window) (result : outcome CompletedProcess)
  : outcome window :=
  match result with
  | Returned r =>
      if returncode r =? 0
      then Returned (set_views (tree_widget self) (list_items (stdout r)) self)
      else Returned self
  | Raised e => Raised e
  end.

Definition refresh_file_list (self : window) (ls : listings) : outcome window :=
  if negb (truthy (device_id self)) then Returned self
  else
    let root_item := {| label := ROOT; data := ROOT |} in
    let tree := root_item :: populate_tree_item ROOT (ls_root ls) in
    let self := set_views tree [] self in
    match list_current self (ls_current ls) with
    | Raised e => Returned (warn (WithExn "Failed to list files: " e) self)
    | done => done
    end.

(** *** Navigation, lines 224 to 239 *)

Definition on_tree_double_click (self : window) (item : tree_item)
    (ls : listings) : outcome window :=
  refresh_file_list (set_current_path (data item) self) ls.

Definition on_file_double_click (self : window) (item : list_item)
    (ls : listings) : outcome window :=
  if is_dir item then
    refresh_file_list
      (set_current_path
         (replace_char BACKSLASH SLASH (path_join (current_path self) (text item)))
         self) ls
  else Returned self.

Definition go_up (self : window) (ls : listings) : outcome window :=
  if negb (current_path self =? ROOT)%string then
    refresh_file_list (set_current_path (dirname (current_path self)) self) ls
  else Returned self.

(** The navigation a user can do, with the answers of the device. *)
Inductive action : Type :=
| TreeDoubleClick (item : tree_item) (ls : listings)
| FileDoubleClick (item : list_item) (ls : listings)
| GoUp (ls : listings).

Definition handle (self : window) (a : action) : outcome window :=
  match a with
  | TreeDoubleClick item ls => on_tree_double_click self item ls
  | FileDoubleClick item ls => on_file_double_click self item ls
  | GoUp ls => go_up self ls
  end.

Fixpoint handle_all (self : window) (acts : list action) : outcome window :=
  match acts with
  | [] => Returned self
  | a :: rest =>
      match handle self a with
      | Returned self' => handle_all self' rest
      | Raised e => Raised e
      end
  end.

(** *** Transfers, lines 287 to 346 *)

Definition isRunning (self : window) (i : nat) : bool :=
  match nth_error (threads self) i with
  | Some th => running th
  | None => false
  end.

(** The guard of lines 288 and 307. *)
Definition transfer_in_flight (self : window) : bool :=
  match transfer_worker self with
  | Some i => isRunning self i
  | None => false
  end.

Definition start_transfer (self : window) (operation src dst : string) : window :=
  let worker := {| TransferWorker.adb_path := adb_path self;
                   TransferWorker.device_id := device_id self;
                   TransferWorker.operation := operation;
                   TransferWorker.src := src;
                   TransferWorker.dst := dst |} in
  set_transfer (Some (List.length (threads self)))
               (threads self ++ [{| task := worker; running := true |}])%list
               false false 0 (Text "Starting transfer...") self.

(** A file chosen for a push: its local path, the exit code of the remote
    [test -e] of line 299, and whether the overwrite question, if asked,
    is answered with Yes. *)
Record push_choice : Type := {
  local : string;
  test_e : outcome Z;
  overwrite : bool
}.

(** The loop of lines 294 to 304. *)
Fixpoint push_loop (self : window) (dst : string) (files : list push_choice)
  : outcome window :=
  match files with
  | [] => Returned self
  | f :: rest =>
      let dst_path :=
        replace_char BACKSLASH SLASH (path_join dst (basename (local f))) in
      match test_e f with
      | Raised e => Raised e
      | Returned code =>
          if (code =? 0) && negb (overwrite f) then push_loop self dst rest
          else push_loop (start_transfer self "push" (local f) dst_path) dst rest
      end
  end.

Definition push_files (self : window) (files : list push_choice) : outcome window :=
  if transfer_in_flight self then Returned self
  else match files with
       | [] => Returned self
       | _ => push_loop self (current_path self) files
       end.

(** An item selected for a pull: the item, whether the destination file
    exists, and the answer to the overwrite question. *)
Record pull_choice : Type := {
  selected : list_item;
  dst_exists : bool;
  pull_overwrite : bool
}.

(** The loop of lines 315 to 324. *)
Fixpoint pull_loop (self : window) (dst_dir : string) (items : list pull_choice)
  : window :=
  match items with
  | [] => self
  | it :: rest =>
      let name := text (selected it) in
      let src :=
        replace_char BACKSLASH SLASH (path_join (current_path self) name) in
      let dst := path_join dst_dir name in
      if dst_exists it && negb (pull_overwrite it) then pull_loop self dst_dir rest
      else pull_loop (start_transfer self "pull" src dst) dst_dir rest
  end.

Definition pull_files (self : window) (items : list pull_choice)
    (dst_dir : string) : window :=
  if transfer_in_flight self then self
  else match items with
       | [] => self
       | _ => if negb (nonempty dst_dir) then self
              else pull_loop self dst_dir items
       end.

(** The thread of worker [i] ends: its [run] has returned. *)
Fixpoint stop (i : nat) (ths : list thread) : list thread :=
  match ths, i with
  | [], _ => []
  | th :: rest, O => {| task := task th; running := false |} :: rest
  | th :: rest, S j => th :: stop j rest
  end.

Definition thread_ends (self : window) (i : nat) : window :=
  set_transfer (transfer_worker self) (stop i (threads self))
               (push_button self) (pull_button self)
               (progress_bar self) (progress_label self) self.

Definition on_transfer_finished (self : window) (success : bool) (msg : message)
    (ls : listings) : outcome window :=
  let self := set_transfer (transfer_worker self) (threads self) true true
                           (if success then 100 else 0) msg self in
  if success then refresh_file_list self ls else Returned self.

(** The worker threads running now. *)
Definition running_workers (self : window) : nat :=
  List.length (filter running (threads self)).

(** What happens to a window over time: the user pushes, pulls or
    navigates, the thread of a worker ends, the [finished] signal of a
    worker is delivered. *)
Inductive happening : Type :=
| Push (files : list push_choice)
| Pull (items : list pull_choice) (dst_dir : string)
| Navigate (a : action)
| ThreadEnds (i : nat)
| TransferFinished (success : bool) (msg : message) (ls : listings).

Definition happen (self : window) (h : happening) : outcome window :=
  match h with
  | Push files => push_files self files
  | Pull items dst_dir => Returned (pull_files self items dst_dir)
  | Navigate a => handle self a
  | ThreadEnds i => Returned (thread_ends self i)
  | TransferFinished success msg ls => on_transfer_finished self success msg ls
  end.

Fixpoint happen_all (self : window) (hs : list happening) : outcome window :=
  match hs with
  | [] => Returned self
  | h :: rest =>
      match happen self h with
      | Returned self' => happen_all self' rest
      | Raised e => Raised e
      end
  end.

End AdbFileExplorer.

End Adb.

(* ===================================================================== *)
(** * [main.py] *)
(* ===================================================================== *)

Module Main.
Import Py.

Definition ADB : string := "adb".
Definition ANDROID_ROOT : string := "/sdcard/".

(** The window of [ADBWindowsGUI]: its fields, the widgets the handlers
    write, and the message boxes shown so far. *)
Record gui : Type := {
  current_device : option string;
  current_path : string;
  device_combo : list string;
  tree : list string;
  path_label : string;
  boxes : list message
}.

Definition set_devices (combo : list string) (dev : option string)
    (self : gui) : gui :=
  {| current_device := dev; current_path := current_path self;
     device_combo := combo; tree := tree self;
     path_label := path_label self; boxes := boxes self |}.

Definition set_current_path (p : string) (self : gui) : gui :=
  {| current_device := current_device self; current_path := p;
     device_combo := device_combo self; tree := tree self;
     path_label := path_label self; boxes := boxes self |}.

Definition set_tree (items : list string) (lbl : string) (self : gui) : gui :=
  {| current_device := current_device self; current_path := current_path self;
     device_combo := device_combo self; tree := items;
     path_label := lbl; boxes := boxes self |}.

Definition show_box (m : message) (self : gui) : gui :=
  {| current_device := current_device self; current_path := current_path self;
     device_combo := device_combo self; tree := tree self;
     path_label := path_label self; boxes := (boxes self ++ [m])%list |}.

(** [subprocess.check_output(..., text=True)]: the captured output, or
    [CalledProcessError] on an exit code other than zero. *)
Definition check_output (r : outcome CompletedProcess) : outcome string :=
  match r with
  | Returned p =>
      if returncode p =? 0 then Returned (stdout p)
      else Raised (CalledProcessError (returncode p))
  | Raised e => Raised e
  end.

(** Line 78: the device list read off the output of [adb devices]. *)
Definition devices (out : string) : list string :=
  map (fun l => hd EmptyString (split_ws l))
      (filter (fun l => contains (chr TAB ++ "device") l) (splitlines out)).

(** [load_devices], lines 75 to 86. *)
Definition load_devices (self : gui) (r : outcome CompletedProcess) : gui :=
  match check_output r with
  | Returned out =>
      match devices out with
      | d :: ds => set_devices (d :: ds) (Some d) self
      | [] => show_box (Text "No Android device detected")
                       (set_devices [] (current_device self) self)
      end
  | Raised e => show_box (WithExn "" e) self
  end.

(** [adb_shell], lines 89 and 90.  With no device chosen the argument list
    holds [None], which [subprocess] refuses. *)
Definition adb_shell (self : gui) (r : outcome CompletedProcess) : outcome string :=
  match current_device self with
  | Some _ => check_output r
  | None =>
      Raised (RuntimeError "expected str, bytes or os.PathLike object, not NoneType")
  end.

(** [refresh_files], lines 92 to 100. *)
Definition refresh_files (self : gui) (ls : outcome CompletedProcess) : gui :=
  let self := set_tree [] (path_label self) self in
  match adb_shell self ls with
  | Returned out => set_tree (splitlines out) (current_path self) self
  | Raised _ => self
  end.

(** [open_item], lines 102 to 110: [probe] is the listing of line 106 and
    [ls] the one of the refresh. *)
Definition open_item (self : gui) (name : string)
    (probe ls : outcome CompletedProcess) : gui :=
  let new_path := current_path self ++ name ++ "/" in
  match adb_shell self probe with
  | Returned _ => refresh_files (set_current_path new_path self) ls
  | Raised _ => show_box (Text ("Selected: " ++ name)) self
  end.

(** Line 114. *)
Definition parent (path : string) : string :=
  join "/" (init (split SLASH (rstrip_char SLASH path))) ++ "/".

(** [go_up], lines 112 to 115. *)
Definition go_up (self : gui) (ls : outcome CompletedProcess) : gui :=
  if negb (current_path self =? ANDROID_ROOT)%string then
    refresh_files (set_current_path (parent (current_path self)) self) ls
  else self.

(** The navigation a user can do, with the answers of the device. *)
Inductive action : Type :=
| OpenItem (name : string) (probe ls : outcome CompletedProcess)
| GoUp (ls : outcome CompletedProcess).

Definition handle (self : gui) (a : action) : gui :=
  match a with
  | OpenItem name probe ls => open_item self name probe ls
  | GoUp ls => go_up self ls
  end.

Definition handle_all (self : gui) (acts : list action) : gui :=
  fold_left handle acts self.

Definition action_name (a : action) : option string :=
  match a with
  | OpenItem name _ _ => Some name
  | GoUp _ => None
  end.

End Main.


(* ===================================================================== *)
(** * Vocabulary of the properties *)
(* ===================================================================== *)

Import Py.

(** The name of a directory entry: not empty, and without the path
    separator. *)
Definition entry_name (n : string) : Prop :=
  n <> "" /\ has_char SLASH n = false.


(** The text of a path below a root that ends in the separator: each
    directory name followed by the separator. *)
Fixpoint dirs (names : list string) : string :=
  match names with
  | [] => ""
  | n :: rest => n ++ "/" ++ dirs rest
  end.


(** A remote path that is absolute and ends in exactly one separator. *)
Definition absolute_dir (p : string) : Prop :=
  prefix "/" p = true /\ endswith_char SLASH p = true /\
  forall q, p <> q ++ "//".

(** A listing that succeeds. *)
Definition listing_ok (out : string) : outcome CompletedProcess :=
  Returned {| returncode := 0; stdout := out; stderr := "" |}.

(** The window of [main.py] with device [ABC123], at [path]. *)
Definition main_at (path : string) : Main.gui :=
  {| Main.current_device := Some "ABC123"; Main.current_path := path;
     Main.device_combo := ["ABC123"]; Main.tree := [];
     Main.path_label := path; Main.boxes := [] |}.


(** The window of [Adb.py] with device [ABC123], at [path], idle. *)
Definition adb_at (path : string) : Adb.AdbFileExplorer.window :=
  {| Adb.AdbFileExplorer.adb_path := "adb.exe";
     Adb.AdbFileExplorer.device_id := Some "ABC123";
     Adb.AdbFileExplorer.current_path := path;
     Adb.AdbFileExplorer.transfer_worker := None;
     Adb.AdbFileExplorer.threads := [];
     Adb.AdbFileExplorer.status_label := Text "Device: ABC123";
     Adb.AdbFileExplorer.tree_widget := [];
     Adb.AdbFileExplorer.file_list := [];
     Adb.AdbFileExplorer.push_button := true;
     Adb.AdbFileExplorer.pull_button := true;
     Adb.AdbFileExplorer.progress_bar := 0;
     Adb.AdbFileExplorer.progress_label := Text "Ready";
     Adb.AdbFileExplorer.warnings := [] |}.

(** Both listings of a refresh succeed with the same output. *)
Definition listings_ok (out : string) : Adb.AdbFileExplorer.listings :=
  {| Adb.AdbFileExplorer.ls_root := listing_ok out;
     Adb.AdbFileExplorer.ls_current := listing_ok out |}.

(** ** The transfer worker *)

(** A trace with no terminal outcome yet. *)
Definition pending (tr : list Adb.TransferWorker.event) : Prop :=
  Forall (fun ev => Adb.TransferWorker.is_terminal ev = false) tr.

(** A trace that ends with its only terminal outcome. *)
Definition concluded (tr : list Adb.TransferWorker.event) : Prop :=
  exists pre success msg,
    tr = (pre ++ [Adb.TransferWorker.Finished success msg])%list /\ pending pre.

(** The percentage a line of the subprocess shows: the number before the
    first percent sign that follows digits. *)
Definition line_percent (raw : string) : option Z :=
  match search_percent (strip raw) with
  | Some digits => int_literal digits
  | None => None
  end.

(** The percentages the subprocess prints, line by line, as far as its
    output can be read (an empty read is the end of the stream). *)
Fixpoint printed (reads : list (outcome string)) : list Z :=
  match reads with
  | [] => []
  | Returned raw :: rest =>
      if nonempty raw then
        match line_percent raw with
        | Some p => p :: printed rest
        | None => printed rest
        end
      else []
  | Raised _ :: _ => []
  end.

Definition printed_percents (w : Adb.TransferWorker.world) : list Z :=
  match Adb.TransferWorker.popen w with
  | Returned process => printed (Adb.TransferWorker.readline process)
  | Raised _ => []
  end.

Fixpoint nondecreasing (l : list Z) : Prop :=
  match l with
  | a :: (b :: _) as rest => a <= b /\ nondecreasing rest
  | _ => True
  end.

(** The terminal outcome that belongs to an exit code of the transfer
    subprocess. *)
Definition exit_outcome (code : Z) : Adb.TransferWorker.event :=
  if code =? 0
  then Adb.TransferWorker.Finished true (Text "Transfer completed successfully.")
  else Adb.TransferWorker.Finished false
         (Text ("Transfer failed with exit code " ++ str_int code)).

(** The size of the source of a pull cannot be determined. *)
Inductive size_unavailable (w : Adb.TransferWorker.world) : Prop :=
| stat_raises (e : exn) :
    Adb.TransferWorker.stat w = Raised e -> size_unavailable w
| stat_exits_nonzero (r : CompletedProcess) :
    Adb.TransferWorker.stat w = Returned r -> returncode r <> 0 ->
    size_unavailable w
| stat_prints_nothing (r : CompletedProcess) :
    Adb.TransferWorker.stat w = Returned r -> strip (stdout r) = "" ->
    size_unavailable w
| stat_prints_no_integer (r : CompletedProcess) :
    Adb.TransferWorker.stat w = Returned r -> int_literal (stdout r) = None ->
    size_unavailable w.

(** ** Runs of the worker used below *)

Definition push_worker : Adb.TransferWorker.worker :=
  {| Adb.TransferWorker.adb_path := "adb.exe";
     Adb.TransferWorker.device_id := Some "ABC123";
     Adb.TransferWorker.operation := "push";
     Adb.TransferWorker.src := "/home/user/video.mp4";
     Adb.TransferWorker.dst := "/sdcard/video.mp4" |}.

Definition pull_worker : Adb.TransferWorker.worker :=
  {| Adb.TransferWorker.adb_path := "adb.exe";
     Adb.TransferWorker.device_id := Some "ABC123";
     Adb.TransferWorker.operation := "pull";
     Adb.TransferWorker.src := "/sdcard/video.mp4";
     Adb.TransferWorker.dst := "/home/user/video.mp4" |}.

(** A line as [readline] returns it. *)
Definition line (s : string) : outcome string := Returned (s ++ chr LF).

(** The world of a transfer: the local file has [size] bytes, the remote
    [stat] gives [st], the transfer process prints [lines] and exits with
    [code]; every number is within what the interpreter takes. *)
Definition transfer_world (size : Z) (st : outcome CompletedProcess)
    (lines : list string) (code : Z) : Adb.TransferWorker.world :=
  {| Adb.TransferWorker.getsize := Returned size;
     Adb.TransferWorker.stat := st;
     Adb.TransferWorker.popen :=
       Returned {| Adb.TransferWorker.readline := map line lines;
                   Adb.TransferWorker.wait := code |};
     Adb.TransferWorker.int_refuses := fun _ => false;
     Adb.TransferWorker.report_refuses := fun _ _ => None |}.

(** The remote [stat] prints [out] and exits with [code]. *)
Definition stat_result (code : Z) (out err : string) : outcome CompletedProcess :=
  Returned {| returncode := code; stdout := out; stderr := err |}.

(** ** Listings *)



(** The line [ls -p] prints for an item, and its output for the items of
    a directory. *)
Definition ls_line (item : Adb.AdbFileExplorer.list_item) : string :=
  Adb.AdbFileExplorer.text item
  ++ (if Adb.AdbFileExplorer.is_dir item then "/" else "").

Fixpoint ls_output (items : list Adb.AdbFileExplorer.list_item) : string :=
  match items with
  | [] => ""
  | item :: rest => ls_line item ++ chr LF ++ ls_output rest
  end.

(** An entry name that a listing shows as it is: without line feed, and
    with no white space at either end. *)
Definition listed_name (n : string) : Prop :=
  entry_name n /\ has_char LF n = false /\
  lstrip_by isspace n = n /\ rstrip_by isspace n = n.

(** A listing the device refuses. *)
Definition listing_denied : outcome CompletedProcess :=
  Returned {| returncode := 1; stdout := "";
              stderr := "ls: /sdcard/secret: Permission denied" |}.

(** ** Device enumeration *)

(** The output of [adb devices] for the given serials and states: the
    header, a line per device, and an empty line. *)
Fixpoint device_lines (rows : list (string * string)) : string :=
  match rows with
  | [] => ""
  | r :: rest => fst r ++ chr TAB ++ snd r ++ chr LF ++ device_lines rest
  end.

Definition devices_output (rows : list (string * string)) : string :=
  "List of devices attached" ++ chr LF ++ device_lines rows ++ chr LF.

(** A row the tool can print: the serial is not empty and has no white
    space; the state has no tabulator and no line break, and is [device]
    or does not begin with that word. *)
Definition device_row (r : string * string) : Prop :=
  fst r <> "" /\
  string_forall (fun c => negb (isspace c)) (fst r) = true /\
  string_forall (fun c => negb (isspace c) || Ascii.eqb c " ") (snd r) = true /\
  (snd r = "device" \/ prefix "device" (snd r) = false).

(** The serials of the rows whose state is [device], in order. *)
Definition serials_of_devices (rows : list (string * string)) : list string :=
  map fst (filter (fun r => (snd r =? "device")%string) rows).

(** ** Transfers *)

(** A local file chosen for a push that is not yet on the device. *)
Definition new_file (path : string) : Adb.AdbFileExplorer.push_choice :=
  {| Adb.AdbFileExplorer.local := path;
     Adb.AdbFileExplorer.test_e := Returned 1;
     Adb.AdbFileExplorer.overwrite := false |}.

(** A push or pull of at most one file. *)
Definition one_file (h : Adb.AdbFileExplorer.happening) : Prop :=
  match h with
  | Adb.AdbFileExplorer.Push files => (List.length files <= 1)%nat
  | Adb.AdbFileExplorer.Pull items _ => (List.length items <= 1)%nat
  | _ => True
  end.

(** Only the worker started last can be running, and the window refers
    to it. *)
Definition last_worker_only (self : Adb.AdbFileExplorer.window) : Prop :=
  forall i th,
    nth_error (Adb.AdbFileExplorer.threads self) i = Some th ->
    Adb.AdbFileExplorer.running th = true ->
    S i = List.length (Adb.AdbFileExplorer.threads self) /\
    Adb.AdbFileExplorer.transfer_worker self = Some i.

(* ===================================================================== *)
(** * More of the two programs *)
(* ===================================================================== *)

(** ** The order of the events of a run *)

(** After the transfer process has started: progress signals, then the
    terminal outcome and nothing more. *)
Fixpoint after_start (tr : list Adb.TransferWorker.event) : bool :=
  match tr with
  | [Adb.TransferWorker.Finished _ _] => true
  | Adb.TransferWorker.Progress _ :: rest => after_start rest
  | _ => false
  end.

(** After the size is known: the terminal outcome at once, or the start of
    the transfer process and what follows it. *)
Definition after_sizing (tr : list Adb.TransferWorker.event) : bool :=
  match tr with
  | [Adb.TransferWorker.Finished _ _] => true
  | Adb.TransferWorker.Popen :: rest => after_start rest
  | _ => false
  end.

(** A whole run: at most one remote [stat] first. *)
Definition in_order (tr : list Adb.TransferWorker.event) : bool :=
  match tr with
  | Adb.TransferWorker.Run :: rest => after_sizing rest
  | _ => after_sizing tr
  end.

(** The text shows at least one digit with a percent sign right after
    it. *)
Definition shows_percent (s : string) : Prop :=
  exists pre digits post,
    s = pre ++ digits ++ String "%" post /\
    string_forall isdigit digits = true /\ digits <> "".

(** ** [Adb.py]: folders, deletion and the signals of a worker *)

Module AdbOps.
Import Adb.AdbFileExplorer.

(** The argument list of a command. *)
Definition argv : Type := list string.

(** [subprocess.run([adb_path, '-s', device_id, 'shell', ...])] as lines
    261 to 263 and 280 to 282 call it: the commands that ran, and the exit
    code or the exception.  With no device the list holds [None], which
    [subprocess] refuses; a command that cannot be started raises too. *)
Definition shell (self : window) (words : list string) (result : outcome Z)
  : list argv * outcome Z :=
  match device_id self with
  | Some d =>
      match result with
      | Returned code =>
          ([adb_path self :: "-s" :: d :: "shell" :: words], Returned code)
      | Raised e => ([], Raised e)
      end
  | None =>
      ([], Raised (RuntimeError
                     "expected str, bytes or os.PathLike object, not NoneType"))
  end.

(** The remote path of an entry of the current directory, lines 260, 279
    and 317. *)
Definition remote_path (self : window) (name : string) : string :=
  replace_char BACKSLASH SLASH (path_join (current_path self) name).

(** [create_folder], lines 257 to 269: [name] and [ok] are what the input
    dialog gives. *)
Definition create_folder (self : window) (name : string) (ok : bool)
    (mkdir : outcome Z) (ls : listings) : list argv * window :=
  if ok && nonempty name then
    match shell self ["mkdir"; "-p"; remote_path self name] mkdir with
    | (ran, Returned code) =>
        if code =? 0 then
          match refresh_file_list self ls with
          | Returned self' => (ran, self')
          | Raised e => (ran, warn (WithExn "" e) self)
          end
        else (ran, warn (Text "Failed to create folder") self)
    | (ran, Raised e) => (ran, warn (WithExn "" e) self)
    end
  else ([], self).



(** [update_progress], lines 336 to 338; [status] is the text the worker
    rendered. *)
Definition update_progress (self : window) (percent : Z) (status : string)
  : window :=
  set_transfer (transfer_worker self) (threads self)
               (push_button self) (pull_button self) percent (Text status) self.

(** The slots connected at lines 332 and 333 take the signals of a worker
    in the order it emits them; the launches of processes are no signals.
    [render] is the status text of a percentage. *)
Definition deliver (render : Z -> string) (ls : listings) (self : window)
    (ev : Adb.TransferWorker.event) : outcome window :=
  match ev with
  | Adb.TransferWorker.Progress p => Returned (update_progress self p (render p))
  | Adb.TransferWorker.Finished ok msg => on_transfer_finished self ok msg ls
  | _ => Returned self
  end.

Fixpoint deliver_all (render : Z -> string) (ls : listings) (self : window)
    (tr : list Adb.TransferWorker.event) : outcome window :=
  match tr with
  | [] => Returned self
  | ev :: rest =>
      match deliver render ls self ev with
      | Returned self' => deliver_all render ls self' rest
      | Raised e => Raised e
      end
  end.

(** A file of a push is transferred unless it exists on the device and the
    user declines to overwrite it (lines 300 to 303). *)
Definition transferred (f : push_choice) : bool :=
  match test_e f with
  | Returned code => negb ((code =? 0) && negb (overwrite f))
  | Raised _ => false
  end.

(** The thread [start_transfer] makes for a file of a push. *)
Definition push_thread (self : window) (f : push_choice) : thread :=
  {| task := {| Adb.TransferWorker.adb_path := adb_path self;
                Adb.TransferWorker.device_id := device_id self;
                Adb.TransferWorker.operation := "push";
                Adb.TransferWorker.src := local f;
                Adb.TransferWorker.dst := remote_path self (basename (local f)) |};
     running := true |}.

(** An item of a pull is transferred unless the destination exists and the
    user declines to overwrite it (lines 320 to 323). *)
Definition pulled (it : pull_choice) : bool :=
  negb (dst_exists it && negb (pull_overwrite it)).

Definition pull_thread (self : window) (dst_dir : string) (it : pull_choice)
  : thread :=
  {| task := {| Adb.TransferWorker.adb_path := adb_path self;
                Adb.TransferWorker.device_id := device_id self;
                Adb.TransferWorker.operation := "pull";
                Adb.TransferWorker.src := remote_path self (text (selected it));
                Adb.TransferWorker.dst := path_join dst_dir (text (selected it)) |};
     running := true |}.

End AdbOps.

(** ** [main.py]: the clipboard and deletion *)

Module MainOps.

Definition argv : Type := list string.

(** The window of [main.py] with its clipboard (lines 9 and 10). *)
Record desk : Type := {
  gui : Main.gui;
  clipboard : option string;
  clipboard_mode : option string
}.

(** [subprocess.run([ADB, "-s", current_device, "shell", ...])], lines 135,
    137 and 145: the commands that ran, and the exit code or the
    exception. *)
Definition shell (self : Main.gui) (words : list string) (result : outcome Z)
  : list argv * outcome Z :=
  match Main.current_device self with
  | Some d =>
      match result with
      | Returned code =>
          ([Main.ADB :: "-s" :: d :: "shell" :: words], Returned code)
      | Raised e => ([], Raised e)
      end
  | None =>
      ([], Raised (RuntimeError
                     "expected str, bytes or os.PathLike object, not NoneType"))
  end.

(** [selected_item], lines 117 to 119: [sel] holds the texts of the
    selected items. *)
Definition selected_item (self : Main.gui) (sel : list string) : option string :=
  match sel with
  | [] => None
  | name :: _ => Some (Main.current_path self ++ name)
  end.

(** [copy] and [cut], lines 121 to 127. *)
Definition copy (d : desk) (sel : list string) : desk :=
  {| gui := gui d; clipboard := selected_item (gui d) sel;
     clipboard_mode := Some "copy" |}.

Definition cut (d : desk) (sel : list string) : desk :=
  {| gui := gui d; clipboard := selected_item (gui d) sel;
     clipboard_mode := Some "cut" |}.

Definition falsy (s : option string) : bool :=
  match s with
  | Some t => negb (nonempty t)
  | None => true
  end.

Definition is_copy (mode : option string) : bool :=
  match mode with
  | Some m => (m =? "copy")%string
  | None => false
  end.

(** [paste], lines 129 to 138: the exit code of the command is not looked
    at; an exception of [subprocess.run] leaves the handler. *)
Definition paste (d : desk) (result : outcome Z) (ls : outcome CompletedProcess)
  : list argv * outcome desk :=
  match clipboard d with
  | Some source =>
      if falsy (clipboard d) then ([], Returned d)
      else
        let name := basename source in
        let dest := Main.current_path (gui d) ++ name in
        let words := if is_copy (clipboard_mode d)
                     then ["cp"; "-r"; source; dest]
                     else ["mv"; source; dest] in
        match shell (gui d) words result with
        | (ran, Returned _) =>
            (ran, Returned {| gui := Main.refresh_files (gui d) ls;
                              clipboard := clipboard d;
                              clipboard_mode := clipboard_mode d |})
        | (ran, Raised e) => (ran, Raised e)
        end
  | None => ([], Returned d)
  end.


(** The handlers of navigation read and write no clipboard. *)
Definition navigate (d : desk) (acts : list Main.action) : desk :=
  {| gui := Main.handle_all (gui d) acts; clipboard := clipboard d;
     clipboard_mode := clipboard_mode d |}.

End MainOps.

(** ** Inputs of the examples of this part *)

(** A world in which the local file of a push cannot be read. *)
Definition unreadable_world (e : exn) : Adb.TransferWorker.world :=
  {| Adb.TransferWorker.getsize := Raised e;
     Adb.TransferWorker.stat := stat_result 0 "" "";
     Adb.TransferWorker.popen :=
       Returned {| Adb.TransferWorker.readline := [];
                   Adb.TransferWorker.wait := 0 |};
     Adb.TransferWorker.int_refuses := fun _ => false;
     Adb.TransferWorker.report_refuses := fun _ _ => None |}.

(** ** Tables of devices that [Adb.py] reads well *)

(** The line of a row of the table. *)
Definition row_line (r : string * string) : string :=
  fst r ++ chr TAB ++ snd r.

(** A row in which the word [device] occurs only as the state: the serial
    holds neither the word nor a tabulator or line feed; the state is not
    empty, has no line feed and no white space at its end, and is [device]
    or does not hold the word. *)
Definition plain_row (r : string * string) : Prop :=
  has_char TAB (fst r) = false /\ has_char LF (fst r) = false /\
  contains "device" (fst r) = false /\
  has_char LF (snd r) = false /\ snd r <> "" /\
  rstrip_by isspace (snd r) = snd r /\
  (snd r = "device" \/ contains "device" (snd r) = false).

(** ** What a refresh shows *)

(** The children of the root item for the entries of the root: its
    directories, in order, each with its path. *)
Definition root_children (entries : list Adb.AdbFileExplorer.list_item)
  : list Adb.AdbFileExplorer.tree_item :=
  map (fun item =>
         {| Adb.AdbFileExplorer.label := Adb.AdbFileExplorer.text item;
            Adb.AdbFileExplorer.data := "/sdcard/" ++ Adb.AdbFileExplorer.text item |})
      (filter Adb.AdbFileExplorer.is_dir entries).

(** An entry whose name shows as it is and has no backslash. *)
Definition plain_entry (item : Adb.AdbFileExplorer.list_item) : Prop :=
  listed_name (Adb.AdbFileExplorer.text item) /\
  has_char BACKSLASH (Adb.AdbFileExplorer.text item) = false.

(** Two entries of a directory. *)
Definition sample_entries : list Adb.AdbFileExplorer.list_item :=
  [{| Adb.AdbFileExplorer.text := "DCIM"; Adb.AdbFileExplorer.is_dir := true |};
   {| Adb.AdbFileExplorer.text := "notes.txt"; Adb.AdbFileExplorer.is_dir := false |}].

(** ** Commands *)



(** ** Navigation in [main.py] *)

(** The action opens the entry [n], and the device lists the new path. *)
Definition opens_dir (a : Main.action) (n : string) : Prop :=
  exists p ls, a = Main.OpenItem n (Returned p) ls /\ returncode p = 0.

Definition goes_up (a : Main.action) : Prop :=
  exists ls, a = Main.GoUp ls.

(** The output of [ls] for the given names, a line each. *)
Fixpoint names_output (names : list string) : string :=
  match names with
  | [] => ""
  | n :: rest => n ++ chr LF ++ names_output rest
  end.

(** A name that fits on a line. *)
Definition line_name (n : string) : Prop :=
  string_forall (fun c => negb (islinebreak c)) n = true.

(** The command of [main.py] for the given words. *)
Definition main_command (dev : string) (words : list string) : MainOps.argv :=
  Main.ADB :: "-s" :: dev :: "shell" :: words.

(* ===================================================================== *)
(** * Facts about the string primitives *)
(* ===================================================================== *)

Lemma append_nil_r (s : string) : s ++ "" = s.
Proof. induction s as [|c s IH]; simpl; [reflexivity | now rewrite IH]. Qed.

Lemma append_assoc (s t u : string) : (s ++ t) ++ u = s ++ (t ++ u).
Proof. induction s as [|c s IH]; simpl; [reflexivity | now rewrite IH]. Qed.

Lemma nonempty_true (s : string) : nonempty s = true <-> s <> "".
Proof. destruct s; simpl; split; congruence. Qed.

Lemma has_char_app (ch : ascii) (s t : string) :
  has_char ch (s ++ t) = has_char ch s || has_char ch t.
Proof.
  induction s as [|c s IH]; simpl; [reflexivity|].
  now rewrite IH, orb_assoc.
Qed.

Section OneCharacter.

Variable ch : ascii.

Lemma split_not_nil (s : string) : split ch s <> [].
Proof.
  induction s as [|c s IH]; simpl; [discriminate|].
  destruct (Ascii.eqb c ch); [discriminate|].
  destruct (split ch s); discriminate.
Qed.

Lemma split_without (s : string) : has_char ch s = false -> split ch s = [s].
Proof.
  induction s as [|c s IH]; simpl; [reflexivity|].
  intros H. apply orb_false_iff in H as [Hc Hs].
  now rewrite Hc, (IH Hs).
Qed.

(** Splitting at a separator and joining with it again gives the string
    back. *)
Lemma join_split (s : string) : join (chr ch) (split ch s) = s.
Proof.
  induction s as [|c s IH]; simpl; [reflexivity|].
  destruct (Ascii.eqb_spec c ch) as [->|Hne].
  - pose proof (split_not_nil s) as Hnil.
    destruct (split ch s) as [|w ws]; [congruence|].
    remember (w :: ws) as l. simpl. subst l. now rewrite IH.
  - pose proof (split_not_nil s) as Hnil.
    destruct (split ch s) as [|w ws]; [congruence|].
    destruct ws as [|w' ws]; simpl in *; now rewrite <- IH.
Qed.

(** The last field of a split is what follows the last separator. *)
Lemma split_app_last (q n : string) :
  has_char ch n = false ->
  split ch (q ++ String ch n) = (split ch q ++ [n])%list.
Proof.
  intros Hn. induction q as [|c q IH]; simpl.
  - now rewrite Ascii.eqb_refl, (split_without n Hn).
  - destruct (Ascii.eqb c ch); rewrite IH; [reflexivity|].
    pose proof (split_not_nil q) as Hnil.
    destruct (split ch q); [congruence | reflexivity].
Qed.

Lemma rstrip_by_snoc (p : ascii -> bool) (s : string) (c : ascii) :
  p c = true -> rstrip_by p (s ++ chr c) = rstrip_by p s.
Proof.
  intros Hc. induction s as [|a s IH]; simpl.
  - now rewrite Hc.
  - now rewrite IH.
Qed.

Lemma rstrip_by_app (p : ascii -> bool) (s t : string) :
  rstrip_by p (s ++ t) =
  match rstrip_by p t with
  | EmptyString => rstrip_by p s
  | r => s ++ r
  end.
Proof.
  induction s as [|a s IH]; simpl.
  - now destruct (rstrip_by p t).
  - rewrite IH. destruct (rstrip_by p t); [reflexivity|].
    now destruct (s ++ String a0 s0) eqn:E; [destruct s; discriminate|].
Qed.

Lemma rstrip_char_without (s : string) :
  has_char ch s = false -> rstrip_char ch s = s.
Proof.
  unfold rstrip_char.
  induction s as [|c s IH]; simpl; [reflexivity|].
  intros H. apply orb_false_iff in H as [Hc Hs].
  rewrite (IH Hs). destruct s; [|reflexivity].
  now rewrite Ascii.eqb_sym, Hc.
Qed.

(** [endswith] says what it should: the string is some text followed by
    the character. *)
Lemma endswith_char_spec (s : string) :
  endswith_char ch s = true <-> exists n, s = n ++ chr ch.
Proof.
  induction s as [|c s IH]; simpl.
  - split; [discriminate|]. intros [[|a n] H]; discriminate.
  - destruct s as [|c' s'].
    + split.
      * intros H. apply Ascii.eqb_eq in H as ->. now exists "".
      * intros [[|a n] H]; simpl in H.
        -- injection H as ->. apply Ascii.eqb_refl.
        -- injection H as _ H. destruct n; discriminate.
    + rewrite IH. split.
      * intros [n ->]. now exists (String c n).
      * intros [[|a n] H]; simpl in H; [discriminate|].
        injection H as _ H. now exists n.
Qed.

End OneCharacter.

(* ===================================================================== *)
(** * Navigation in [main.py] *)
(* ===================================================================== *)

Lemma entry_name_rstrip (p n : string) :
  entry_name n -> rstrip_char SLASH (p ++ n ++ "/") = p ++ n.
Proof.
  intros [Hne Hno].
  rewrite <- append_assoc. unfold rstrip_char.
  change "/" with (chr SLASH).
  rewrite rstrip_by_snoc by apply Ascii.eqb_refl.
  rewrite rstrip_by_app.
  fold (rstrip_char SLASH n). rewrite (rstrip_char_without SLASH n Hno).
  destruct n; [congruence | reflexivity].
Qed.

(** Line 114 undoes line 104: the parent of [p + n + "/"] is [p]. *)
Lemma parent_of_child (p n : string) :
  endswith_char SLASH p = true -> entry_name n ->
  Main.parent (p ++ n ++ "/") = p.
Proof.
  intros Hp Hn. unfold Main.parent.
  rewrite (entry_name_rstrip p n Hn).
  apply endswith_char_spec in Hp as [q ->].
  rewrite append_assoc. simpl (chr SLASH ++ n).
  rewrite split_app_last by apply Hn.
  unfold init. rewrite removelast_last.
  change "/" with (chr SLASH). now rewrite join_split.
Qed.

Lemma dirs_app (a b : list string) : dirs (a ++ b) = dirs a ++ dirs b.
Proof.
  induction a as [|n a IH]; simpl; [reflexivity|].
  now rewrite IH, !append_assoc.
Qed.

Lemma endswith_dirs (names : list string) (p : string) :
  endswith_char SLASH p = true ->
  endswith_char SLASH (p ++ dirs names) = true.
Proof.
  revert p. induction names as [|n rest IH]; intros p Hp.
  - simpl. now rewrite append_nil_r.
  - change (dirs (n :: rest)) with (n ++ "/" ++ dirs rest).
    rewrite <- !append_assoc. apply IH.
    apply endswith_char_spec. now exists (p ++ n).
Qed.

Lemma main_refresh_path (self : Main.gui) (ls : outcome CompletedProcess) :
  Main.current_path (Main.refresh_files self ls) = Main.current_path self.
Proof.
  unfold Main.refresh_files.
  now destruct (Main.adb_shell _ ls).
Qed.

Lemma main_open_item_path (self : Main.gui) (n : string)
    (probe ls : outcome CompletedProcess) :
  Main.current_path (Main.open_item self n probe ls) =
  match Main.adb_shell self probe with
  | Returned _ => Main.current_path self ++ n ++ "/"
  | Raised _ => Main.current_path self
  end.
Proof.
  unfold Main.open_item.
  destruct (Main.adb_shell self probe); [|reflexivity].
  now rewrite main_refresh_path.
Qed.

Lemma main_go_up_path (self : Main.gui) (ls : outcome CompletedProcess) :
  Main.current_path (Main.go_up self ls) =
  if (Main.current_path self =? Main.ANDROID_ROOT)%string
  then Main.current_path self
  else Main.parent (Main.current_path self).
Proof.
  unfold Main.go_up.
  destruct (Main.current_path self =? Main.ANDROID_ROOT)%string; simpl;
    [reflexivity|].
  now rewrite main_refresh_path.
Qed.



(* ===================================================================== *)
(** * Navigation in [Adb.py] *)
(* ===================================================================== *)

Section AdbNavigation.

Import Adb.AdbFileExplorer.

Lemma rsplit_sep_without (r : string) :
  has_char SLASH r = false -> rsplit_sep r = ("", r).
Proof.
  destruct r as [|c r]; simpl; [reflexivity|].
  intros H. apply orb_false_iff in H as [Hc Hr].
  now rewrite Hr, Hc.
Qed.

Lemma fst_rsplit_sep_app (a r : string) :
  fst (rsplit_sep (a ++ String SLASH r)) = a ++ String SLASH (fst (rsplit_sep r)).
Proof.
  induction a as [|c a IH].
  - simpl. destruct (has_char SLASH r) eqn:Hr.
    + now destruct (rsplit_sep r).
    + now rewrite (rsplit_sep_without r Hr).
  - simpl. rewrite has_char_app. simpl. rewrite orb_true_r.
    destruct (rsplit_sep (a ++ String SLASH r)). simpl in *. now rewrite IH.
Qed.




Lemma entry_name_relative (n : string) : entry_name n -> prefix "/" n = false.
Proof.
  intros [Hne Hno]. destruct n as [|c n]; [congruence|].
  simpl in Hno. apply orb_false_iff in Hno as [Hc _].
  change (prefix "/" (String c n))
    with (if ascii_dec "/" c then prefix "" n else false).
  destruct (ascii_dec "/" c) as [<-|]; [discriminate | reflexivity].
Qed.



Lemma refresh_file_list_returns (self : window) (ls : listings) :
  exists self',
    refresh_file_list self ls = Returned self' /\
    current_path self' = current_path self.
Proof.
  unfold refresh_file_list.
  destruct (truthy (device_id self)); simpl; [|now exists self].
  unfold list_current.
  destruct (ls_current ls) as [r|e].
  - destruct (returncode r =? 0); eexists; split; reflexivity.
  - eexists; split; reflexivity.
Qed.



End AdbNavigation.

(* ===================================================================== *)
(** * The root bounds the navigation *)
(* ===================================================================== *)




(** C10, as stated, fails at the path [/] and the name [sdcard]: opening
    [sdcard] from [/] gives the root path, where "go up" does nothing. *)
Lemma open_then_go_up_counterexample :
  absolute_dir (Main.current_path (main_at "/")) /\
  entry_name "sdcard" /\
  Main.current_path
    (Main.open_item (main_at "/") "sdcard" (listing_ok "") (listing_ok ""))
    = "/" ++ "sdcard" ++ "/" /\
  Main.current_path
    (Main.go_up
       (Main.open_item (main_at "/") "sdcard" (listing_ok "") (listing_ok ""))
       (listing_ok ""))
    <> Main.current_path (main_at "/").
Proof.
  split; [|split; [|split]].
  - repeat split. intros q H. simpl in H.
    destruct q as [|c q]; [discriminate|].
    simpl in H. injection H as _ H. destruct q; discriminate.
  - split; [discriminate | reflexivity].
  - reflexivity.
  - discriminate.
Qed.

(** C10, amended.  In [main.py], for every path [p] ending in the
    separator and every entry name [n] (not empty, without separator) such
    that [p + n + "/"] is not the root path: opening [n] from [p], when the
    probe of the new path succeeds, and then going up restores the current
    path to [p]. *)
Theorem open_then_go_up (self : Main.gui) (n : string)
    (probe ls ls' : outcome CompletedProcess) (out : string) :
  endswith_char SLASH (Main.current_path self) = true ->
  entry_name n ->
  Main.current_path self ++ n ++ "/" <> Main.ANDROID_ROOT ->
  Main.adb_shell self probe = Returned out ->
  Main.current_path (Main.open_item self n probe ls)
    = Main.current_path self ++ n ++ "/" /\
  Main.current_path (Main.go_up (Main.open_item self n probe ls) ls')
    = Main.current_path self.
Proof.
  intros Hp Hn Hroot Hprobe.
  assert (E : Main.current_path (Main.open_item self n probe ls)
              = Main.current_path self ++ n ++ "/")
    by now rewrite main_open_item_path, Hprobe.
  split; [exact E|].
  rewrite main_go_up_path, E.
  destruct (String.eqb_spec (Main.current_path self ++ n ++ "/") Main.ANDROID_ROOT);
    [congruence|].
  now apply parent_of_child.
Qed.

Lemma open_then_go_up_witness :
  Main.current_path
    (Main.go_up
       (Main.open_item (main_at "/sdcard/") "DCIM" (listing_ok "") (listing_ok ""))
       (listing_ok ""))
  = "/sdcard/".
Proof.
  apply (open_then_go_up (main_at "/sdcard/") "DCIM"
           (listing_ok "") (listing_ok "") (listing_ok "") "").
  - reflexivity.
  - split; [discriminate | reflexivity].
  - discriminate.
  - reflexivity.
Defined.

(* ===================================================================== *)
(** * Numbers in text *)
(* ===================================================================== *)

Lemma isdigit_facts (c : ascii) :
  isdigit c = true ->
  isspace c = false /\ Ascii.eqb c "_" = false /\ Ascii.eqb c "+" = false /\
  Ascii.eqb c "-" = false /\ 0 <= digit_value c.
Proof.
  destruct c as [b0 b1 b2 b3 b4 b5 b6 b7].
  destruct b0, b1, b2, b3, b4, b5, b6, b7; intros H; vm_compute in H;
    try discriminate H; vm_compute; repeat split; intro; discriminate.
Qed.

Lemma lstrip_by_fixed (p : ascii -> bool) (c : ascii) (s : string) :
  p c = false -> lstrip_by p (String c s) = String c s.
Proof. intros H. simpl. now rewrite H. Qed.

Lemma rstrip_by_forall (p : ascii -> bool) (s : string) :
  string_forall (fun c => negb (p c)) s = true -> rstrip_by p s = s.
Proof.
  induction s as [|c s IH]; simpl; [reflexivity|].
  intros H. apply andb_true_iff in H as [Hc Hs].
  rewrite (IH Hs). destruct s; [|reflexivity].
  now destruct (p c).
Qed.

Lemma digits_not_space (s : string) :
  string_forall isdigit s = true ->
  string_forall (fun c => negb (isspace c)) s = true.
Proof.
  induction s as [|c s IH]; simpl; [reflexivity|].
  intros H. apply andb_true_iff in H as [Hc Hs].
  destruct (isdigit_facts c Hc) as [-> _]. now apply IH.
Qed.

Lemma strip_digits (s : string) : string_forall isdigit s = true -> strip s = s.
Proof.
  intros H. unfold strip.
  rewrite (rstrip_by_forall isspace s (digits_not_space s H)).
  destruct s as [|c s]; [reflexivity|].
  simpl in H. apply andb_true_iff in H as [Hc _].
  apply lstrip_by_fixed. now destruct (isdigit_facts c Hc).
Qed.

Lemma int_digits_nonneg (s : string) (acc : Z) (after_digit : bool) :
  string_forall isdigit s = true -> 0 <= acc ->
  s <> "" \/ after_digit = true ->
  exists n, int_digits acc after_digit s = Some n /\ 0 <= n.
Proof.
  revert acc after_digit. induction s as [|c s IH]; intros acc after H Hacc Hs.
  - destruct Hs as [Hs | ->]; [congruence|]. exists acc. now split.
  - simpl in H. apply andb_true_iff in H as [Hc Hrest].
    destruct (isdigit_facts c Hc) as (_ & Hu & _ & _ & Hv).
    unfold int_digits; fold int_digits.
    rewrite Hu, Hc. apply IH; [assumption | lia | now right].
Qed.

(** [int] of a run of digits is a number that is not negative. *)
Lemma int_literal_digits (s : string) :
  string_forall isdigit s = true -> s <> "" ->
  exists n, int_literal s = Some n /\ 0 <= n.
Proof.
  intros H Hne. unfold int_literal. rewrite (strip_digits s H).
  destruct s as [|c s]; [congruence|].
  pose proof H as H'. simpl in H'. apply andb_true_iff in H' as [Hc _].
  destruct (isdigit_facts c Hc) as (_ & _ & -> & -> & _).
  apply int_digits_nonneg; [assumption | lia | now left].
Qed.

Lemma span_digits_digits (s : string) :
  string_forall isdigit (fst (span_digits s)) = true.
Proof.
  induction s as [|c s IH]; simpl; [reflexivity|].
  destruct (isdigit c) eqn:Hc; [|reflexivity].
  destruct (span_digits s). simpl in *. now rewrite Hc.
Qed.

(** Group 1 of a match of [(\d+)%] is a run of digits that is not empty. *)
Lemma search_percent_digits (s g : string) :
  search_percent s = Some g -> string_forall isdigit g = true /\ g <> "".
Proof.
  induction s as [|c s IH]; [discriminate|].
  unfold search_percent; fold search_percent.
  destruct (match_percent_here (String c s)) as [g'|] eqn:E; [|exact IH].
  intros [= <-]. unfold match_percent_here in E.
  pose proof (span_digits_digits (String c s)) as Hd.
  destruct (span_digits (String c s)) as [ds rest].
  destruct ds as [|d ds]; [discriminate|].
  destruct rest as [|r rest]; [discriminate|].
  destruct (Ascii.eqb r "%"); [|discriminate].
  injection E as <-. split; [exact Hd | discriminate].
Qed.

Lemma span_digits_parts (s : string) :
  s = fst (span_digits s) ++ snd (span_digits s).
Proof.
  induction s as [|c s IH]; simpl; [reflexivity|].
  destruct (isdigit c); [|reflexivity].
  destruct (span_digits s). simpl in *. now rewrite <- IH.
Qed.

Lemma span_digits_run (g post : string) :
  string_forall isdigit g = true ->
  span_digits (g ++ String "%" post) = (g, String "%" post).
Proof.
  induction g as [|c g IH]; intros H; [reflexivity|].
  cbn [string_forall] in H. apply andb_true_iff in H as [Hc Hg].
  cbn [append span_digits]. now rewrite Hc, (IH Hg).
Qed.

(** The search finds only what the pattern describes: digits, at least
    one, with a percent sign after them. *)
Lemma search_percent_sound (s g : string) :
  search_percent s = Some g ->
  exists pre post,
    s = pre ++ g ++ String "%" post /\
    string_forall isdigit g = true /\ g <> "".
Proof.
  intros H. destruct (search_percent_digits s g H) as [Hd Hne].
  revert H. induction s as [|c s IH]; [discriminate|].
  unfold search_percent; fold search_percent.
  destruct (match_percent_here (String c s)) as [g'|] eqn:E.
  - intros [= ->]. unfold match_percent_here in E.
    pose proof (span_digits_parts (String c s)) as Hparts.
    destruct (span_digits (String c s)) as [ds rest].
    destruct ds as [|d ds]; [discriminate|].
    destruct rest as [|r rest]; [discriminate|].
    destruct (Ascii.eqb_spec r "%") as [->|]; [|discriminate].
    injection E as <-. exists "", rest. now repeat split.
  - intros H. destruct (IH H) as (pre & post & -> & _).
    exists (String c pre), post. now repeat split.
Qed.

(** And it finds a match whenever the line has one. *)
Lemma search_percent_complete (pre g post : string) :
  string_forall isdigit g = true -> g <> "" ->
  search_percent (pre ++ g ++ String "%" post) <> None.
Proof.
  intros Hd Hne. induction pre as [|c pre IH].
  - destruct g as [|d g]; [congruence|].
    change ("" ++ String d g ++ String "%" post)
      with (String d (g ++ String "%" post)).
    unfold search_percent; fold search_percent.
    unfold match_percent_here.
    change (String d (g ++ String "%" post))
      with (String d g ++ String "%" post).
    rewrite (span_digits_run (String d g) post Hd). discriminate.
  - change (String c pre ++ g ++ String "%" post)
      with (String c (pre ++ g ++ String "%" post)).
    unfold search_percent; fold search_percent.
    now destruct (match_percent_here (String c (pre ++ g ++ String "%" post))).
Qed.

Lemma line_percent_nonneg (raw : string) (p : Z) :
  line_percent raw = Some p -> 0 <= p.
Proof.
  unfold line_percent.
  destruct (search_percent (strip raw)) as [g|] eqn:E; [|discriminate].
  destruct (search_percent_digits _ _ E) as [Hd Hne].
  destruct (int_literal_digits g Hd Hne) as [n [-> Hn]].
  now intros [= <-].
Qed.

Lemma printed_nonneg (reads : list (outcome string)) :
  Forall (fun p => 0 <= p) (printed reads).
Proof.
  induction reads as [|[raw|e] reads IH]; simpl; [constructor | | constructor].
  destruct (nonempty raw); [|constructor].
  destruct (line_percent raw) eqn:E; [|assumption].
  constructor; [now apply (line_percent_nonneg raw) | assumption].
Qed.

(* ===================================================================== *)
(** * The transfer worker *)
(* ===================================================================== *)

Section Worker.

Import Adb.TransferWorker.

Variable w : world.

Lemma percents_progress (ps : list Z) : percents (map Progress ps) = ps.
Proof. induction ps as [|p ps IH]; simpl; [reflexivity | now rewrite IH]. Qed.

Lemma percents_app (a b : list event) :
  percents (a ++ b) = (percents a ++ percents b)%list.
Proof.
  induction a as [|ev a IH]; simpl; [reflexivity|].
  destruct ev; simpl; now rewrite IH.
Qed.

Lemma pending_progress (ps : list Z) : pending (map Progress ps).
Proof. induction ps; constructor; [reflexivity | assumption]. Qed.

(** One turn of the loop emits the percentage of the line, or nothing when
    the line shows none, or raises. *)
Lemma read_line_spec (total : Z) (raw : string) :
  match line_percent raw with
  | Some p =>
      read_line w total raw = ([Progress p], Returned tt) \/
      exists e, read_line w total raw = ([], Raised e)
  | None => read_line w total raw = ([], Returned tt)
  end.
Proof.
  unfold line_percent, read_line.
  destruct (search_percent (strip raw)) as [g|] eqn:E; [|reflexivity].
  destruct (search_percent_digits _ _ E) as [Hd Hne].
  destruct (int_literal_digits g Hd Hne) as [n [Hn _]]. rewrite Hn.
  unfold int, report. rewrite Hn.
  destruct (int_refuses w g); simpl; [right; eauto|].
  destruct (report_refuses w n total); simpl; [right; eauto | now left].
Qed.

(** The loop emits a first part of the printed percentages, and all of
    them when it ends without an exception. *)
Lemma read_lines_spec (total : Z) (reads : list (outcome string)) :
  exists ps rest,
    fst (read_lines w total reads) = map Progress ps /\
    printed reads = (ps ++ rest)%list /\
    (snd (read_lines w total reads) = Returned tt -> rest = []).
Proof.
  induction reads as [|[raw|e] reads IH].
  - exists [], []. now repeat split.
  - destruct IH as (ps & rest & Htr & Hpr & Hend).
    pose proof (read_line_spec total raw) as Hline.
    simpl. unfold bind at 1. simpl.
    destruct (nonempty raw); [|exists [], []; now repeat split].
    destruct (line_percent raw) as [p|].
    + destruct Hline as [-> | [e ->]].
      * exists (p :: ps), rest. simpl.
        destruct (read_lines w total reads) as [tr r]. simpl in *.
        repeat split; [now rewrite Htr | now rewrite Hpr | exact Hend].
      * exists [], (p :: printed reads). simpl. now repeat split.
    + rewrite Hline. exists ps, rest. simpl.
      destruct (read_lines w total reads) as [tr r]. simpl in *.
      now repeat split.
  - exists [], []. simpl. now repeat split.
Qed.

(** Lines 41 to 66, case by case. *)
Lemma transfer_spec (self : worker) (total : Z) :
  transfer self w total =
  match popen w with
  | Raised e => ([], Raised e)
  | Returned process =>
      match read_lines w total (readline process) with
      | (tr, Returned _) =>
          (Popen :: tr ++ [exit_outcome (wait process)], Returned tt)%list
      | (tr, Raised e) => (Popen :: tr, Raised e)
      end
  end.
Proof.
  unfold transfer, exit_outcome.
  destruct (popen w) as [process|e]; [|reflexivity].
  simpl. destruct (read_lines w total (readline process)) as [tr [[]|e]]; simpl.
  - now destruct (wait process =? 0).
  - reflexivity.
Qed.

(** Lines 28 to 38, case by case: the size is found, or an exception is
    raised, or line 37 reports the failure; only the remote [stat] may have
    been launched. *)
Lemma total_size_spec (self : worker) :
  exists pre,
    Forall (eq Run) pre /\
    ((exists n, total_size self w = (pre, Returned (Some n))) \/
     (exists e, total_size self w = (pre, Raised e)) \/
     (exists msg,
        total_size self w = (pre ++ [Finished false msg], Returned None)%list)).
Proof.
  unfold total_size.
  destruct (operation self =? "push")%string.
  { exists []. split; [constructor|].
    destruct (getsize w) as [n|e]; simpl; eauto. }
  destruct (operation self =? "pull")%string.
  2:{ exists []. split; [constructor|]. left. now exists 0. }
  destruct (stat w) as [r|e]; simpl.
  2:{ exists []. split; [constructor|]. eauto. }
  exists [Run]. split; [now constructor|].
  destruct (returncode r =? 0); simpl.
  - destruct (int w (strip (stdout r))) as [n|e]; simpl; eauto.
  - right. right. eexists. reflexivity.
Qed.

End Worker.

Section WorkerRun.

Import Adb.TransferWorker.

(** Every run: perhaps the remote [stat], perhaps the transfer process and
    a first part of the percentages it prints, and then one [finished]
    signal. *)
Lemma run_shape (self : worker) (w : world) :
  exists pre started ps success msg,
    run self w =
      (pre ++ (if started : bool then [Popen] else [])
           ++ map Progress ps ++ [Finished success msg])%list /\
    Forall (eq Run) pre /\
    exists rest, printed_percents w = (ps ++ rest)%list.
Proof.
  unfold run, run_M, run_body.
  destruct (total_size_spec w self) as (pre & Hpre & [[n E] | [[e E] | [msg E]]]);
    rewrite E; clear E.
  - unfold bind. rewrite transfer_spec. unfold printed_percents.
    destruct (popen w) as [process|e].
    + destruct (read_lines_spec w n (readline process))
        as (ps & rest & Htr & Hpr & _).
      destruct (read_lines w n (readline process)) as [tr [[]|e]];
        simpl in Htr; subst tr; simpl.
      * unfold exit_outcome. destruct (wait process =? 0);
          exists pre, true, ps; do 2 eexists;
          (split; [reflexivity | split; [assumption | now exists rest]]).
      * exists pre, true, ps, false, (WithExn "" e).
        split; [|split; [assumption | now exists rest]].
        now rewrite <- !app_assoc.
    + simpl. exists pre, false, [], false, (WithExn "" e).
      split; [|split; [assumption | now eexists]].
      now rewrite app_nil_r.
  - simpl. exists pre, false, [], false, (WithExn "" e).
    split; [reflexivity | split; [assumption | now eexists]].
  - simpl. exists pre, false, [], false, msg.
    split; [now rewrite app_nil_r | split; [assumption | now eexists]].
Qed.

Lemma pending_app (a b : list event) : pending a -> pending b -> pending (a ++ b).
Proof. intros Ha Hb. apply Forall_app. now split. Qed.

Lemma pending_run_only (pre : list event) : Forall (eq Run) pre -> pending pre.
Proof.
  intros H. induction H as [|ev pre <- _ IH]; constructor; [reflexivity | exact IH].
Qed.

Lemma percents_run_only (pre : list event) : Forall (eq Run) pre -> percents pre = [].
Proof. intros H. induction H as [|ev pre <- _ IH]; [reflexivity | exact IH]. Qed.

(** The percentages a run emits are a first part of those the subprocess
    prints. *)
Lemma run_percents_printed (self : worker) (w : world) :
  exists rest, printed_percents w = (percents (run self w) ++ rest)%list.
Proof.
  destruct (run_shape self w) as (pre & started & ps & ok & msg & -> & Hpre & Hps).
  rewrite !percents_app, (percents_run_only pre Hpre), percents_progress.
  destruct started; simpl; now rewrite app_nil_r.
Qed.

End WorkerRun.

Lemma nondecreasing_app (a b : list Z) : nondecreasing (a ++ b) -> nondecreasing a.
Proof.
  induction a as [|x a IH]; [easy|].
  destruct a as [|y a]; [easy|].
  simpl. intros [Hxy H]. split; [exact Hxy | now apply IH].
Qed.

(** C5.  On every path of a run (the size is not found, the subprocess
    exits, an exception is raised inside) the worker emits exactly one
    terminal outcome, and it is the last thing the worker does. *)
Theorem run_concludes_once (self : Adb.TransferWorker.worker)
    (w : Adb.TransferWorker.world) :
  concluded (Adb.TransferWorker.run self w).
Proof.
  destruct (run_shape self w) as (pre & started & ps & ok & msg & -> & Hpre & _).
  exists (pre ++ (if started then [Adb.TransferWorker.Popen] else [])
              ++ map Adb.TransferWorker.Progress ps)%list, ok, msg.
  split; [now rewrite <- !app_assoc|].
  apply pending_app; [now apply pending_run_only|].
  apply pending_app; [|apply pending_progress].
  destruct started; repeat constructor.
Qed.

(** C2, as stated, fails: the worker forwards what the subprocess prints.
    After [50%] a line with [20%] makes the emitted values go down, and a
    line with [150%] is emitted as 150. *)
Lemma progress_forwarded_unchecked :
  Adb.TransferWorker.percents
    (Adb.TransferWorker.run push_worker
       (transfer_world 1000000 (stat_result 0 "" "")
          ["[ 50%] /sdcard/video.mp4"; "[ 20%] /sdcard/video.mp4"] 0))
    = [50; 20] /\
  ~ nondecreasing [50; 20] /\
  Adb.TransferWorker.percents
    (Adb.TransferWorker.run push_worker
       (transfer_world 1000000 (stat_result 0 "" "")
          ["[150%] /sdcard/video.mp4"] 0))
    = [150] /\
  ~ Forall (fun p => 0 <= p <= 100) [150].
Proof.
  split; [reflexivity|]. split; [simpl; lia|]. split; [reflexivity|].
  intros H. inversion H; subst. lia.
Qed.

(** C2, amended.  For every transfer whose subprocess prints percentages
    that are at most 100 and do not decrease, every percent value the
    worker emits lies in [0,100] and the emitted values do not decrease:
    they are, in order, a first part of the printed ones, neither clamped
    nor reordered. *)
Theorem progress_follows_printed (self : Adb.TransferWorker.worker)
    (w : Adb.TransferWorker.world) :
  Forall (fun p => p <= 100) (printed_percents w) ->
  nondecreasing (printed_percents w) ->
  Forall (fun p => 0 <= p <= 100)
         (Adb.TransferWorker.percents (Adb.TransferWorker.run self w)) /\
  nondecreasing (Adb.TransferWorker.percents (Adb.TransferWorker.run self w)) /\
  exists rest,
    printed_percents w
      = (Adb.TransferWorker.percents (Adb.TransferWorker.run self w) ++ rest)%list.
Proof.
  intros Hmax Hmono.
  destruct (run_percents_printed self w) as [rest Hrest].
  assert (Hnn : Forall (fun p => 0 <= p) (printed_percents w)).
  { unfold printed_percents. destruct (Adb.TransferWorker.popen w);
      [apply printed_nonneg | constructor]. }
  rewrite Hrest in Hmax, Hmono, Hnn.
  apply Forall_app in Hmax as [Hmax _]. apply Forall_app in Hnn as [Hnn _].
  split; [|split; [now apply nondecreasing_app in Hmono | now exists rest]].
  rewrite Forall_forall in *. intros p Hp.
  split; [now apply Hnn | now apply Hmax].
Qed.

Lemma progress_follows_printed_witness :
  Forall (fun p => 0 <= p <= 100)
    (Adb.TransferWorker.percents
       (Adb.TransferWorker.run push_worker
          (transfer_world 1000000 (stat_result 0 "" "")
             ["[ 50%] /sdcard/video.mp4"; "[100%] /sdcard/video.mp4"] 0))) /\
  nondecreasing
    (Adb.TransferWorker.percents
       (Adb.TransferWorker.run push_worker
          (transfer_world 1000000 (stat_result 0 "" "")
             ["[ 50%] /sdcard/video.mp4"; "[100%] /sdcard/video.mp4"] 0))).
Proof.
  destruct (progress_follows_printed push_worker
              (transfer_world 1000000 (stat_result 0 "" "")
                 ["[ 50%] /sdcard/video.mp4"; "[100%] /sdcard/video.mp4"] 0))
    as (A & B & _).
  - change (Forall (fun p => p <= 100) [50; 100]).
    repeat constructor; discriminate.
  - change (nondecreasing [50; 100]).
    split; [discriminate | exact I].
  - split; [exact A | exact B].
Defined.

(* ===================================================================== *)
(** * The end of a transfer *)
(* ===================================================================== *)

(** C6, as stated, fails in its last part: the text of the failure holds
    the exit code and nothing of what the subprocess printed. *)
Lemma failed_transfer_drops_diagnostic :
  Adb.TransferWorker.run push_worker
    (transfer_world 1000000 (stat_result 0 "" "")
       ["adb: error: failed to copy to /sdcard/video.mp4: Permission denied"] 1)
  = [Adb.TransferWorker.Popen;
     Adb.TransferWorker.Finished false (Text "Transfer failed with exit code 1")] /\
  contains "Permission denied" "Transfer failed with exit code 1" = false.
Proof. split; reflexivity. Qed.

(** C6, amended.  For every transfer that reaches the exit of its
    subprocess (the size was found, the process started, no turn of the
    output loop raised): exit code 0 yields the one terminal outcome
    Completed with the text "Transfer completed successfully.", any other
    exit code yields the one terminal outcome Failed with the text
    "Transfer failed with exit code N", which carries the exit code and
    none of the output; and the percentages emitted before it are all those
    the subprocess printed. *)
Theorem exit_code_decides (self : Adb.TransferWorker.worker)
    (w : Adb.TransferWorker.world) (total : Z)
    (process : Adb.TransferWorker.Process) :
  snd (Adb.TransferWorker.total_size self w) = Returned (Some total) ->
  Adb.TransferWorker.popen w = Returned process ->
  snd (Adb.TransferWorker.read_lines w total (Adb.TransferWorker.readline process))
    = Returned tt ->
  exists pre,
    Adb.TransferWorker.run self w
      = (pre ++ [exit_outcome (Adb.TransferWorker.wait process)])%list /\
    pending pre /\
    Adb.TransferWorker.percents pre
      = printed (Adb.TransferWorker.readline process).
Proof.
  intros Hsize Hpopen Hloop.
  unfold Adb.TransferWorker.run, Adb.TransferWorker.run_M,
    Adb.TransferWorker.run_body.
  destruct (total_size_spec w self) as (pre & Hpre & [[n E] | [[e E] | [msg E]]]);
    rewrite E in Hsize |- *; simpl in Hsize; [|discriminate|discriminate].
  injection Hsize as ->.
  unfold Adb.TransferWorker.bind. rewrite transfer_spec, Hpopen.
  destruct (read_lines_spec w total (Adb.TransferWorker.readline process))
    as (ps & rest & Htr & Hpr & Hend).
  destruct (Adb.TransferWorker.read_lines w total
              (Adb.TransferWorker.readline process)) as [tr r].
  simpl in Htr, Hloop, Hend. subst tr r.
  rewrite (Hend eq_refl), app_nil_r in Hpr. simpl.
  exists (pre ++ Adb.TransferWorker.Popen :: map Adb.TransferWorker.Progress ps)%list.
  split; [now rewrite <- app_assoc|]. split.
  - apply pending_app; [now apply pending_run_only|].
    constructor; [reflexivity | apply pending_progress].
  - rewrite percents_app, (percents_run_only pre Hpre). simpl.
    now rewrite percents_progress.
Qed.

Lemma exit_code_decides_witness :
  exists pre,
    Adb.TransferWorker.run push_worker
      (transfer_world 1000000 (stat_result 0 "" "")
         ["[ 50%] /sdcard/video.mp4"; "[100%] /sdcard/video.mp4"] 0)
      = (pre ++ [Adb.TransferWorker.Finished true
                   (Text "Transfer completed successfully.")])%list /\
    pending pre /\
    Adb.TransferWorker.percents pre = [50; 100].
Proof.
  apply (exit_code_decides push_worker
           (transfer_world 1000000 (stat_result 0 "" "")
              ["[ 50%] /sdcard/video.mp4"; "[100%] /sdcard/video.mp4"] 0)
           1000000
           {| Adb.TransferWorker.readline :=
                map line ["[ 50%] /sdcard/video.mp4"; "[100%] /sdcard/video.mp4"];
              Adb.TransferWorker.wait := 0 |});
    reflexivity.
Defined.

(* ===================================================================== *)
(** * A pull without a size *)
(* ===================================================================== *)

Lemma lstrip_by_idempotent (p : ascii -> bool) (s : string) :
  lstrip_by p (lstrip_by p s) = lstrip_by p s.
Proof.
  induction s as [|c s IH]; simpl; [reflexivity|].
  destruct (p c) eqn:Hc; [exact IH|]. simpl. now rewrite Hc.
Qed.

Lemma rstrip_by_idempotent (p : ascii -> bool) (s : string) :
  rstrip_by p (rstrip_by p s) = rstrip_by p s.
Proof.
  induction s as [|c s IH]; simpl; [reflexivity|].
  destruct (rstrip_by p s) as [|a r] eqn:E.
  - destruct (p c) eqn:Hc; simpl; [reflexivity | now rewrite Hc].
  - remember (String a r) as t. simpl. now rewrite IH, Heqt.
Qed.

Lemma rstrip_by_lstrip_by (p : ascii -> bool) (s : string) :
  rstrip_by p s = s -> rstrip_by p (lstrip_by p s) = lstrip_by p s.
Proof.
  induction s as [|c s IH]; [reflexivity|].
  intros H. simpl lstrip_by. destruct (p c) eqn:Hc; [|exact H].
  apply IH. simpl in H. rewrite Hc in H.
  destruct (rstrip_by p s); [discriminate | now injection H].
Qed.

Lemma strip_idempotent (s : string) : strip (strip s) = strip s.
Proof.
  unfold strip.
  rewrite rstrip_by_lstrip_by by apply rstrip_by_idempotent.
  apply lstrip_by_idempotent.
Qed.

Lemma int_literal_strip (s : string) : int_literal (strip s) = int_literal s.
Proof. unfold int_literal. now rewrite strip_idempotent. Qed.

(** [int] raises on a text that is no integer literal. *)
Lemma int_raises (w : Adb.TransferWorker.world) (s : string) :
  int_literal s = None ->
  Adb.TransferWorker.int w s = Raised (ValueError s).
Proof.
  intros H. unfold Adb.TransferWorker.int. rewrite H.
  now destruct (Adb.TransferWorker.int_refuses w s).
Qed.

(** C8.  For every pull whose source size cannot be determined (the remote
    [stat] cannot be run or exits with a code other than zero, or its
    output is empty or no integer), the run ends in the terminal outcome
    Failed, and before it at most the remote [stat] was launched: the
    transfer subprocess is never started. *)
Theorem pull_without_size_fails (self : Adb.TransferWorker.worker)
    (w : Adb.TransferWorker.world) :
  Adb.TransferWorker.operation self = "pull" ->
  size_unavailable w ->
  (exists pre msg,
     Adb.TransferWorker.run self w
       = (pre ++ [Adb.TransferWorker.Finished false msg])%list /\
     Forall (eq Adb.TransferWorker.Run) pre) /\
  ~ In Adb.TransferWorker.Popen (Adb.TransferWorker.run self w).
Proof.
  intros Hop Hsize.
  assert (H : exists pre msg,
             Adb.TransferWorker.run self w
               = (pre ++ [Adb.TransferWorker.Finished false msg])%list /\
             Forall (eq Adb.TransferWorker.Run) pre).
  { unfold Adb.TransferWorker.run, Adb.TransferWorker.run_M,
      Adb.TransferWorker.run_body, Adb.TransferWorker.total_size.
    rewrite Hop. simpl.
    destruct Hsize as [e E | r E Hcode | r E Hout | r E Hout]; rewrite E; simpl.
    - exists []. eexists. split; [reflexivity | constructor].
    - apply Z.eqb_neq in Hcode. rewrite Hcode. simpl.
      exists [Adb.TransferWorker.Run]. eexists.
      split; [reflexivity | now constructor].
    - destruct (returncode r =? 0); simpl.
      + rewrite int_raises by now rewrite Hout.
        simpl. exists [Adb.TransferWorker.Run]. eexists.
        split; [reflexivity | now constructor].
      + exists [Adb.TransferWorker.Run]. eexists.
        split; [reflexivity | now constructor].
    - destruct (returncode r =? 0); simpl.
      + rewrite int_raises by now rewrite int_literal_strip.
        simpl. exists [Adb.TransferWorker.Run]. eexists.
        split; [reflexivity | now constructor].
      + exists [Adb.TransferWorker.Run]. eexists.
        split; [reflexivity | now constructor]. }
  split; [exact H|].
  destruct H as (pre & msg & -> & Hpre). intros Hin.
  apply in_app_or in Hin as [Hin | [Hin | []]]; [|discriminate].
  rewrite Forall_forall in Hpre. specialize (Hpre _ Hin). discriminate.
Qed.

Lemma pull_without_size_fails_witness :
  (exists pre msg,
     Adb.TransferWorker.run pull_worker
       (transfer_world 0 (stat_result 0 "stat: no such file" "") [] 0)
       = (pre ++ [Adb.TransferWorker.Finished false msg])%list /\
     Forall (eq Adb.TransferWorker.Run) pre) /\
  ~ In Adb.TransferWorker.Popen
      (Adb.TransferWorker.run pull_worker
         (transfer_world 0 (stat_result 0 "stat: no such file" "") [] 0)).
Proof.
  apply (pull_without_size_fails pull_worker
           (transfer_world 0 (stat_result 0 "stat: no such file" "") [] 0)).
  - reflexivity.
  - apply (stat_prints_no_integer _
             {| returncode := 0; stdout := "stat: no such file"; stderr := "" |});
      reflexivity.
Defined.

Example pull_stat_exits_1 :
  Adb.TransferWorker.run pull_worker
    (transfer_world 0
       (stat_result 1 "" "stat: /sdcard/video.mp4: No such file or directory") [] 0)
  = [Adb.TransferWorker.Run;
     Adb.TransferWorker.Finished false
       (Text "Failed to get file size: stat: /sdcard/video.mp4: No such file or directory")].
Proof. reflexivity. Qed.

Example pull_stat_prints_nothing :
  Adb.TransferWorker.run pull_worker (transfer_world 0 (stat_result 0 "" "") [] 0)
  = [Adb.TransferWorker.Run;
     Adb.TransferWorker.Finished false (WithExn "" (ValueError ""))].
Proof. reflexivity. Qed.

(* ===================================================================== *)
(** * Directory listings *)
(* ===================================================================== *)

Lemma rstrip_char_fixed (ch : ascii) (s : string) :
  endswith_char ch s = false -> rstrip_char ch s = s.
Proof.
  unfold rstrip_char. induction s as [|c s IH]; [reflexivity|].
  intros H. simpl in H. simpl rstrip_by. destruct s as [|c' s'].
  - simpl. now rewrite Ascii.eqb_sym, H.
  - rewrite (IH H). reflexivity.
Qed.




Example list_items_scenario :
  Adb.AdbFileExplorer.list_items ("foo.txt" ++ chr LF ++ "bar/" ++ chr LF)
  = [{| Adb.AdbFileExplorer.text := "foo.txt"; Adb.AdbFileExplorer.is_dir := false |};
     {| Adb.AdbFileExplorer.text := "bar"; Adb.AdbFileExplorer.is_dir := true |}].
Proof. reflexivity. Qed.

(** ** The listing of a directory is read back as it is *)

Lemma lstrip_by_length (p : ascii -> bool) (s : string) :
  (String.length (lstrip_by p s) <= String.length s)%nat.
Proof.
  induction s as [|c s IH]; simpl; [lia|].
  destruct (p c); simpl; lia.
Qed.

Lemma lstrip_by_app (p : ascii -> bool) (n t : string) :
  lstrip_by p n = n -> n <> "" -> lstrip_by p (n ++ t) = n ++ t.
Proof.
  destruct n as [|c n]; [congruence|]. intros H _.
  cbn [lstrip_by append] in *. destruct (p c); [|reflexivity].
  pose proof (lstrip_by_length p n) as Hlen. rewrite H in Hlen.
  simpl in Hlen. lia.
Qed.

Lemma split_first (ch : ascii) (l rest : string) :
  has_char ch l = false -> split ch (l ++ String ch rest) = l :: split ch rest.
Proof.
  induction l as [|c l IH]; intros H.
  - simpl. now rewrite Ascii.eqb_refl.
  - simpl in H. apply orb_false_iff in H as [Hc Hl].
    simpl. now rewrite Hc, (IH Hl).
Qed.

Lemma split_join (ch : ascii) (lines : list string) :
  Forall (fun l => has_char ch l = false) lines -> lines <> [] ->
  split ch (join (chr ch) lines) = lines.
Proof.
  induction lines as [|l ls IH]; [congruence|]. intros H _.
  inversion H as [|? ? Hl Hls]; subst.
  destruct ls as [|l2 ls]; [now apply split_without|].
  change (join (chr ch) (l :: l2 :: ls))
    with (l ++ String ch (join (chr ch) (l2 :: ls))).
  rewrite (split_first ch l _ Hl). f_equal. now apply IH.
Qed.

Lemma rstrip_by_join (p : ascii -> bool) (sep : string) (lines : list string) :
  Forall (fun l => rstrip_by p l = l /\ l <> "") lines -> lines <> [] ->
  rstrip_by p (join sep lines) = join sep lines /\ join sep lines <> "".
Proof.
  induction lines as [|l ls IH]; [congruence|]. intros H _.
  inversion H as [|? ? [Hl Hne] Hls]; subst.
  destruct ls as [|l2 ls]; [now split|].
  destruct (IH Hls ltac:(discriminate)) as [HJ HJne].
  change (join sep (l :: l2 :: ls)) with (l ++ sep ++ join sep (l2 :: ls)).
  set (J := join sep (l2 :: ls)) in *.
  split.
  - rewrite !rstrip_by_app, HJ.
    destruct J as [|a J]; [congruence|].
    destruct (sep ++ String a J) eqn:E; [|reflexivity].
    destruct sep; discriminate.
  - destruct l; [congruence | discriminate].
Qed.

Lemma endswith_has_char (ch : ascii) (s : string) :
  endswith_char ch s = true -> has_char ch s = true.
Proof.
  intros H. apply endswith_char_spec in H as [n ->].
  rewrite has_char_app. simpl. now rewrite Ascii.eqb_refl, orb_true_r.
Qed.

(** Lines 198 and 199 read an item back from its line. *)
Lemma ls_line_read (item : Adb.AdbFileExplorer.list_item) :
  entry_name (Adb.AdbFileExplorer.text item) ->
  {| Adb.AdbFileExplorer.text := rstrip_char SLASH (ls_line item);
     Adb.AdbFileExplorer.is_dir := endswith_char SLASH (ls_line item) |} = item.
Proof.
  destruct item as [name dir]. unfold ls_line. simpl. intros [Hne Hno].
  destruct dir.
  - f_equal.
    + unfold rstrip_char. change "/" with (chr SLASH).
      rewrite rstrip_by_snoc by apply Ascii.eqb_refl.
      now apply rstrip_char_without.
    + apply endswith_char_spec. now exists name.
  - rewrite append_nil_r. f_equal.
    + now apply rstrip_char_without.
    + destruct (endswith_char SLASH name) eqn:E; [|reflexivity].
      apply endswith_has_char in E. congruence.
Qed.

(** The properties of a line that the reading relies on. *)
Lemma ls_line_plain (item : Adb.AdbFileExplorer.list_item) :
  listed_name (Adb.AdbFileExplorer.text item) ->
  ls_line item <> "" /\ has_char LF (ls_line item) = false /\
  rstrip_by isspace (ls_line item) = ls_line item /\
  forall t, lstrip_by isspace (ls_line item ++ t) = ls_line item ++ t.
Proof.
  destruct item as [name dir]. unfold ls_line. simpl.
  intros ([Hne Hno] & Hlf & Hl & Hr).
  repeat split.
  - destruct name; [congruence | discriminate].
  - rewrite has_char_app, Hlf. now destruct dir.
  - destruct dir; [|now rewrite append_nil_r].
    now rewrite rstrip_by_app.
  - intros t. rewrite append_assoc. now apply lstrip_by_app.
Qed.

Lemma ls_output_join (items : list Adb.AdbFileExplorer.list_item) :
  items <> [] ->
  ls_output items = join (chr LF) (map ls_line items) ++ chr LF.
Proof.
  induction items as [|item rest IH]; [congruence|]. intros _.
  destruct rest as [|item2 rest]; [reflexivity|].
  change (ls_output (item :: item2 :: rest))
    with (ls_line item ++ chr LF ++ ls_output (item2 :: rest)).
  rewrite IH by discriminate.
  change (join (chr LF) (map ls_line (item :: item2 :: rest)))
    with (ls_line item ++ chr LF ++ join (chr LF) (map ls_line (item2 :: rest))).
  now rewrite !append_assoc.
Qed.

Lemma filter_all {A : Type} (p : A -> bool) (l : list A) :
  Forall (fun x => p x = true) l -> filter p l = l.
Proof.
  induction 1 as [|x l Hx _ IH]; simpl; [reflexivity|]. now rewrite Hx, IH.
Qed.

(** For every directory whose entry names show as they are, the items
    read from the output of [ls -p] are the entries, each with its kind
    and its name. *)
Lemma list_items_of_ls_output (items : list Adb.AdbFileExplorer.list_item) :
  Forall (fun item => listed_name (Adb.AdbFileExplorer.text item)) items ->
  Adb.AdbFileExplorer.list_items (ls_output items) = items.
Proof.
  intros H. destruct items as [|item rest]; [reflexivity|].
  set (items := item :: rest) in *.
  assert (Hplain : Forall (fun it => ls_line it <> "" /\
                                     has_char LF (ls_line it) = false /\
                                     rstrip_by isspace (ls_line it) = ls_line it)
                          items).
  { eapply Forall_impl; [|exact H]. intros it Hit.
    destruct (ls_line_plain it Hit) as (A & B & C & _). now repeat split. }
  unfold Adb.AdbFileExplorer.list_items.
  rewrite ls_output_join by discriminate.
  assert (Hstrip : strip (join (chr LF) (map ls_line items) ++ chr LF)
                   = join (chr LF) (map ls_line items)).
  { unfold strip. rewrite rstrip_by_snoc by reflexivity.
    destruct (rstrip_by_join isspace (chr LF) (map ls_line items)) as [-> _];
      [|discriminate|].
    - apply Forall_map. eapply Forall_impl; [|exact Hplain].
      intros it (A & _ & C). now split.
    - inversion H as [|? ? Hitem _]; subst.
      destruct (ls_line_plain item Hitem) as (_ & _ & _ & Hl).
      unfold items. destruct rest as [|item2 rest].
      + simpl. rewrite <- (append_nil_r (ls_line item)). apply Hl.
      + apply Hl. }
  rewrite Hstrip, split_join; [| |discriminate].
  - rewrite filter_all.
    + rewrite map_map. clear Hplain Hstrip.
      induction H as [|it its [Hit _] _ IH]; [reflexivity|].
      simpl. now rewrite (ls_line_read it Hit), IH.
    + apply Forall_map. eapply Forall_impl; [|exact Hplain].
      intros it (A & _). now apply nonempty_true.
  - apply Forall_map. eapply Forall_impl; [|exact Hplain].
    now intros it (_ & B & _).
Qed.

(** C3, as stated, fails: a listing the device refuses leaves the window
    as a listing of an empty directory does, with no warning, in [Adb.py];
    and in [main.py] too, where the error [adb_shell] raises is dropped. *)
Lemma listing_failure_shown_as_empty :
  Adb.AdbFileExplorer.refresh_file_list (adb_at "/sdcard/secret")
    {| Adb.AdbFileExplorer.ls_root := listing_ok "";
       Adb.AdbFileExplorer.ls_current := listing_denied |}
  = Adb.AdbFileExplorer.refresh_file_list (adb_at "/sdcard/secret")
      {| Adb.AdbFileExplorer.ls_root := listing_ok "";
         Adb.AdbFileExplorer.ls_current := listing_ok "" |} /\
  (exists self',
     Adb.AdbFileExplorer.refresh_file_list (adb_at "/sdcard/secret")
       {| Adb.AdbFileExplorer.ls_root := listing_ok "";
          Adb.AdbFileExplorer.ls_current := listing_denied |} = Returned self' /\
     Adb.AdbFileExplorer.file_list self' = [] /\
     Adb.AdbFileExplorer.warnings self' = []) /\
  Main.refresh_files (main_at "/sdcard/secret/") listing_denied
  = Main.refresh_files (main_at "/sdcard/secret/") (listing_ok "") /\
  Main.boxes (Main.refresh_files (main_at "/sdcard/secret/") listing_denied) = [].
Proof.
  split; [reflexivity|]. split; [|split; reflexivity].
  eexists. repeat split; reflexivity.
Qed.

(** C3, amended.  For every listing in which the external tool exits with
    a code other than zero, the handler returns normally, shows an empty
    listing and reports nothing, and the current path stays as it is:
    [Adb.py] skips the output without a warning; in [main.py] the error
    that [adb_shell] raises is dropped by [refresh_files]. *)
Theorem listing_failure_is_silent (r : CompletedProcess) :
  returncode r <> 0 ->
  (forall (self : Adb.AdbFileExplorer.window) (ls : Adb.AdbFileExplorer.listings),
     Adb.AdbFileExplorer.truthy (Adb.AdbFileExplorer.device_id self) = true ->
     Adb.AdbFileExplorer.ls_current ls = Returned r ->
     exists self',
       Adb.AdbFileExplorer.refresh_file_list self ls = Returned self' /\
       Adb.AdbFileExplorer.file_list self' = [] /\
       Adb.AdbFileExplorer.warnings self' = Adb.AdbFileExplorer.warnings self /\
       Adb.AdbFileExplorer.current_path self'
         = Adb.AdbFileExplorer.current_path self) /\
  (forall self : Main.gui,
     (Main.current_device self <> None ->
      Main.adb_shell self (Returned r)
        = Raised (CalledProcessError (returncode r))) /\
     Main.refresh_files self (Returned r)
       = Main.set_tree [] (Main.path_label self) self).
Proof.
  intros Hcode. apply Z.eqb_neq in Hcode. split.
  - intros self ls Hdev Hls.
    unfold Adb.AdbFileExplorer.refresh_file_list,
      Adb.AdbFileExplorer.list_current.
    rewrite Hdev, Hls, Hcode. simpl.
    eexists. repeat split; reflexivity.
  - intros self. split.
    + intros Hdev. unfold Main.adb_shell, Main.check_output.
      destruct (Main.current_device self); [now rewrite Hcode | congruence].
    + unfold Main.refresh_files, Main.adb_shell, Main.check_output. simpl.
      destruct (Main.current_device self); [now rewrite Hcode | reflexivity].
Qed.

Lemma listing_failure_is_silent_witness :
  (exists self',
     Adb.AdbFileExplorer.refresh_file_list (adb_at "/sdcard/secret")
       {| Adb.AdbFileExplorer.ls_root := listing_ok "";
          Adb.AdbFileExplorer.ls_current := listing_denied |} = Returned self' /\
     Adb.AdbFileExplorer.file_list self' = [] /\
     Adb.AdbFileExplorer.warnings self' = [] /\
     Adb.AdbFileExplorer.current_path self' = "/sdcard/secret") /\
  Main.refresh_files (main_at "/sdcard/secret/") listing_denied
  = Main.set_tree [] "/sdcard/secret/" (main_at "/sdcard/secret/").
Proof.
  destruct (listing_failure_is_silent
              {| returncode := 1; stdout := "";
                 stderr := "ls: /sdcard/secret: Permission denied" |})
    as [A B]; [discriminate|].
  split.
  - apply (A (adb_at "/sdcard/secret")
             {| Adb.AdbFileExplorer.ls_root := listing_ok "";
                Adb.AdbFileExplorer.ls_current := listing_denied |});
      reflexivity.
  - apply (B (main_at "/sdcard/secret/")).
Defined.

(* ===================================================================== *)
(** * Device enumeration *)
(* ===================================================================== *)

Lemma isspace_facts (c : ascii) :
  (isspace c = false -> islinebreak c = false /\ Ascii.eqb c TAB = false) /\
  (Ascii.eqb c " " = true -> islinebreak c = false /\ Ascii.eqb c TAB = false).
Proof.
  destruct c as [b0 b1 b2 b3 b4 b5 b6 b7].
  destruct b0, b1, b2, b3, b4, b5, b6, b7; vm_compute; split; intros H;
    try discriminate H; split; reflexivity.
Qed.

(** The characters of serials and states are no line breaks and no
    tabulators. *)
Lemma row_text_plain (s : string) :
  string_forall (fun c => negb (isspace c) || Ascii.eqb c " ") s = true ->
  string_forall (fun c => negb (islinebreak c)) s = true /\
  has_char TAB s = false.
Proof.
  induction s as [|c s IH]; simpl; [now split|].
  intros H. apply andb_true_iff in H as [Hc Hs].
  destruct (IH Hs) as [-> ->].
  assert (islinebreak c = false /\ Ascii.eqb c TAB = false) as [-> ->].
  { apply orb_true_iff in Hc as [Hc | Hc].
    - apply negb_true_iff in Hc. exact (proj1 (isspace_facts c) Hc).
    - exact (proj2 (isspace_facts c) Hc). }
  now split.
Qed.

Lemma no_space_plain (s : string) :
  string_forall (fun c => negb (isspace c)) s = true ->
  string_forall (fun c => negb (isspace c) || Ascii.eqb c " ") s = true.
Proof.
  induction s as [|c s IH]; simpl; [reflexivity|].
  intros H. apply andb_true_iff in H as [-> Hs]. now rewrite IH.
Qed.

Lemma string_forall_app (p : ascii -> bool) (s t : string) :
  string_forall p (s ++ t) = string_forall p s && string_forall p t.
Proof.
  induction s as [|c s IH]; simpl; [reflexivity|].
  now rewrite IH, andb_assoc.
Qed.

(** [splitlines] cuts a first line off at its line feed. *)
Lemma splitlines_line (l rest : string) :
  string_forall (fun c => negb (islinebreak c)) l = true ->
  splitlines (l ++ String LF rest) = l :: splitlines rest.
Proof.
  induction l as [|c l IH]; intros H.
  - simpl. now destruct rest.
  - simpl in H. apply andb_true_iff in H as [Hc Hl].
    apply negb_true_iff in Hc.
    simpl. now rewrite Hc, (IH Hl).
Qed.

Lemma prefix_cons (a b : ascii) (s t : string) :
  prefix (String a s) (String b t) = if Ascii.eqb a b then prefix s t else false.
Proof.
  change (prefix (String a s) (String b t))
    with (if ascii_dec a b then prefix s t else false).
  destruct (ascii_dec a b) as [->|Hne].
  - now rewrite Ascii.eqb_refl.
  - apply Ascii.eqb_neq in Hne. now rewrite Hne.
Qed.

Lemma contains_cons (n : string) (c : ascii) (s : string) :
  contains n (String c s) = prefix n (String c s) || contains n s.
Proof. reflexivity. Qed.

Lemma contains_absent (ch : ascii) (n s : string) :
  has_char ch s = false -> contains (String ch n) s = false.
Proof.
  induction s as [|c s IH]; [reflexivity|].
  intros H. simpl in H. apply orb_false_iff in H as [Hc Hs].
  rewrite contains_cons, prefix_cons, (IH Hs), orb_false_r.
  now rewrite Ascii.eqb_sym, Hc.
Qed.

(** A word that starts with the tabulator is found in [serial TAB state]
    exactly at the tabulator. *)
Lemma contains_at_tab (n s t : string) :
  has_char TAB s = false -> has_char TAB t = false ->
  contains (String TAB n) (s ++ String TAB t) = prefix n t.
Proof.
  intros Hs Ht. induction s as [|c s IH].
  - change ("" ++ String TAB t) with (String TAB t).
    rewrite contains_cons, prefix_cons, (contains_absent TAB n t Ht).
    now rewrite Ascii.eqb_refl, orb_false_r.
  - simpl in Hs. apply orb_false_iff in Hs as [Hc Hs].
    change (String c s ++ String TAB t) with (String c (s ++ String TAB t)).
    rewrite contains_cons, prefix_cons, (IH Hs).
    now rewrite Ascii.eqb_sym, Hc.
Qed.

(** [split()] gives a first word that ends at white space. *)
Lemma split_ws_first (s rest : string) (c : ascii) :
  s <> "" -> string_forall (fun a => negb (isspace a)) s = true ->
  isspace c = true ->
  split_ws (s ++ String c rest) = s :: split_ws rest.
Proof.
  intros Hne Hs Hc. induction s as [|a s IH]; [congruence|].
  cbn [string_forall] in Hs. apply andb_true_iff in Hs as [Ha Hs].
  apply negb_true_iff in Ha.
  destruct s as [|b s].
  - cbn [append split_ws]. now rewrite Ha, Hc.
  - assert (Hb : isspace b = false).
    { cbn [string_forall] in Hs. apply andb_true_iff in Hs as [Hb _].
      now apply negb_true_iff in Hb. }
    specialize (IH ltac:(discriminate) Hs).
    cbn [append split_ws] in IH |- *. rewrite Ha, Hb.
    rewrite Hb in IH. now rewrite IH.
Qed.

Lemma main_devices_lines (rows : list (string * string)) :
  Forall device_row rows ->
  map (fun l => hd EmptyString (split_ws l))
      (filter (fun l => contains (chr TAB ++ "device") l)
              (splitlines (device_lines rows ++ chr LF)))
  = serials_of_devices rows.
Proof.
  induction rows as [|[serial state] rows IH]; intros H; [reflexivity|].
  inversion H as [|? ? [Hne [Hserial [Hstate Hdev]]] Hrows]; subst.
  simpl in Hne, Hserial, Hstate, Hdev.
  destruct (row_text_plain serial (no_space_plain serial Hserial)) as [Hs1 Hs2].
  destruct (row_text_plain state Hstate) as [Ht1 Ht2].
  change (device_lines ((serial, state) :: rows) ++ chr LF)
    with ((serial ++ chr TAB ++ state ++ chr LF ++ device_lines rows) ++ chr LF).
  replace ((serial ++ chr TAB ++ state ++ chr LF ++ device_lines rows) ++ chr LF)
    with ((serial ++ chr TAB ++ state) ++ String LF (device_lines rows ++ chr LF))
    by (now rewrite !append_assoc).
  rewrite splitlines_line
    by (rewrite !string_forall_app, Hs1, Ht1; reflexivity).
  unfold serials_of_devices. simpl filter.
  change (chr TAB ++ "device") with (String TAB "device").
  change (serial ++ chr TAB ++ state) with (serial ++ String TAB state).
  rewrite (contains_at_tab "device" serial state Hs2 Ht2).
  assert (E : prefix "device" state = (state =? "device")%string).
  { destruct Hdev as [-> | Hp]; [reflexivity|].
    rewrite Hp. symmetry. apply String.eqb_neq. intros ->. discriminate. }
  rewrite E. destruct (state =? "device")%string.
  - simpl map. rewrite (split_ws_first serial state TAB Hne Hserial eq_refl).
    simpl hd. f_equal. now apply IH.
  - now apply IH.
Qed.

(** [load_devices] of [main.py] does what C1 says: on every table the
    tool prints it returns the serials of the rows in state [device], in
    order. *)
Lemma main_devices_exact (rows : list (string * string)) :
  Forall device_row rows ->
  Main.devices (devices_output rows) = serials_of_devices rows.
Proof.
  intros H. unfold Main.devices, devices_output.
  change ("List of devices attached" ++ chr LF ++ device_lines rows ++ chr LF)
    with ("List of devices attached" ++ String LF (device_lines rows ++ chr LF)).
  rewrite splitlines_line by reflexivity.
  simpl filter. now apply main_devices_lines.
Qed.

(** C1 fails in [Adb.py], which looks for the text [device] anywhere in
    the line: an offline device whose serial holds that text is listed,
    and so is a device without permissions, whose state names a page
    [device.html].  [main.py] lists neither. *)
Theorem check_device_lists_other_states :
  Adb.AdbFileExplorer.devices
    (devices_output [("R58M1234XYZ", "device"); ("mydevice01", "offline")])
    = ["R58M1234XYZ"; "mydevice01"] /\
  serials_of_devices [("R58M1234XYZ", "device"); ("mydevice01", "offline")]
    = ["R58M1234XYZ"] /\
  Main.devices
    (devices_output [("R58M1234XYZ", "device"); ("mydevice01", "offline")])
    = ["R58M1234XYZ"] /\
  Adb.AdbFileExplorer.devices
    (devices_output
       [("0123456789ABCDEF",
         "no permissions (user in plugdev group; are your udev rules wrong?); see [http://developer.android.com/tools/device.html]")])
    = ["0123456789ABCDEF"] /\
  Main.devices
    (devices_output
       [("0123456789ABCDEF",
         "no permissions (user in plugdev group; are your udev rules wrong?); see [http://developer.android.com/tools/device.html]")])
    = [].
Proof. repeat split; reflexivity. Qed.

(** The scenario of the specification gives the table without the header
    line: [main.py] reads [ABC123] off it; [Adb.py], which drops the first
    line whatever it is, reads nothing. *)
Example devices_scenario_without_header :
  Main.devices
    ("ABC123" ++ chr TAB ++ "device" ++ chr LF
     ++ "DEF456" ++ chr TAB ++ "offline" ++ chr LF) = ["ABC123"] /\
  Adb.AdbFileExplorer.devices
    ("ABC123" ++ chr TAB ++ "device" ++ chr LF
     ++ "DEF456" ++ chr TAB ++ "offline" ++ chr LF) = [] /\
  Adb.AdbFileExplorer.devices
    (devices_output [("ABC123", "device"); ("DEF456", "offline")]) = ["ABC123"].
Proof. repeat split; reflexivity. Qed.

(* ===================================================================== *)
(** * One transfer at a time *)
(* ===================================================================== *)

Section OneAtATime.

Import Adb.AdbFileExplorer.

Lemma running_at_most_one (ths : list thread) :
  (forall i th, nth_error ths i = Some th -> running th = true ->
                S i = List.length ths) ->
  (List.length (filter running ths) <= 1)%nat.
Proof.
  induction ths as [|a ths IH]; intros H; simpl; [lia|].
  destruct (running a) eqn:Ha.
  - specialize (H 0%nat a eq_refl Ha). simpl in H.
    destruct ths; [simpl; lia | discriminate].
  - apply IH. intros i th Hi Hth.
    specialize (H (S i) th Hi Hth). simpl in H. lia.
Qed.

Lemma last_worker_only_bound (self : window) :
  last_worker_only self -> (running_workers self <= 1)%nat.
Proof.
  intros H. apply running_at_most_one. intros i th Hi Hth.
  now destruct (H i th Hi Hth).
Qed.

(** When the guard of lines 288 and 307 lets a handler pass, no worker is
    running. *)
Lemma guard_passed (self : window) :
  last_worker_only self -> transfer_in_flight self = false ->
  forall i th, nth_error (threads self) i = Some th -> running th = false.
Proof.
  intros H Hguard i th Hi. destruct (running th) eqn:Hth; [|reflexivity].
  destruct (H i th Hi Hth) as [_ Htw].
  unfold transfer_in_flight, isRunning in Hguard.
  rewrite Htw, Hi in Hguard. congruence.
Qed.

Lemma start_transfer_alone (self : window) (op src dst : string) :
  (forall i th, nth_error (threads self) i = Some th -> running th = false) ->
  last_worker_only (start_transfer self op src dst).
Proof.
  intros Hidle i th Hi Hth. unfold start_transfer in *. simpl in *.
  rewrite length_app. simpl.
  destruct (Nat.lt_ge_cases i (List.length (threads self))) as [Hlt | Hge].
  - rewrite nth_error_app1 in Hi by assumption.
    rewrite (Hidle i th Hi) in Hth. discriminate.
  - assert (Hlen : i = List.length (threads self)).
    { assert (Hlt : (i < List.length (threads self ++ [th]))%nat).
      { apply nth_error_Some. rewrite nth_error_app2 in Hi |- * by assumption.
        destruct (i - List.length (threads self))%nat as [|[|k]];
          simpl in *; congruence. }
      rewrite length_app in Hlt. simpl in Hlt. lia. }
    subst i. split; [lia | reflexivity].
Qed.

Lemma nth_error_stop (j i : nat) (ths : list thread) (th : thread) :
  nth_error (stop j ths) i = Some th -> running th = true ->
  nth_error ths i = Some th.
Proof.
  revert j i. induction ths as [|a ths IH]; intros j i Hi Hth.
  - now destruct j.
  - destruct j as [|j], i as [|i]; simpl in *.
    + injection Hi as <-. discriminate.
    + assumption.
    + assumption.
    + now apply (IH j).
Qed.

Lemma length_stop (j : nat) (ths : list thread) :
  List.length (stop j ths) = List.length ths.
Proof.
  revert j. induction ths as [|a ths IH]; intros [|j]; simpl; auto.
Qed.

Lemma refresh_file_list_keeps_workers (self : window) (ls : listings) :
  exists self',
    refresh_file_list self ls = Returned self' /\
    threads self' = threads self /\
    transfer_worker self' = transfer_worker self.
Proof.
  unfold refresh_file_list.
  destruct (truthy (device_id self)); simpl; [|now exists self].
  unfold list_current.
  destruct (ls_current ls) as [r|e].
  - destruct (returncode r =? 0); eexists; repeat split; reflexivity.
  - eexists; repeat split; reflexivity.
Qed.

Lemma handle_keeps_workers (self : window) (a : action) :
  exists self',
    handle self a = Returned self' /\
    threads self' = threads self /\
    transfer_worker self' = transfer_worker self.
Proof.
  destruct a as [item ls | item ls | ls]; simpl.
  - apply (refresh_file_list_keeps_workers (set_current_path _ self)).
  - unfold on_file_double_click. destruct (is_dir item); [|now exists self].
    apply (refresh_file_list_keeps_workers (set_current_path _ self)).
  - unfold go_up. destruct (negb _); [|now exists self].
    apply (refresh_file_list_keeps_workers (set_current_path _ self)).
Qed.

Lemma last_worker_only_same (self self' : window) :
  threads self' = threads self -> transfer_worker self' = transfer_worker self ->
  last_worker_only self -> last_worker_only self'.
Proof. unfold last_worker_only. intros -> ->. auto. Qed.

(** Each happening that transfers at most one file keeps the rule. *)
Lemma happen_keeps_rule (self self' : window) (h : happening) :
  last_worker_only self -> one_file h -> happen self h = Returned self' ->
  last_worker_only self'.
Proof.
  intros Hinv Hone Hh. destruct h as [files | items dst | a | i | ok msg ls];
    simpl in Hh, Hone.
  - unfold push_files in Hh.
    destruct (transfer_in_flight self) eqn:G; [now injection Hh as <-|].
    destruct files as [|f [|f2 files]]; [now injection Hh as <- | | simpl in Hone; lia].
    simpl in Hh. destruct (test_e f) as [code|e]; [|discriminate].
    destruct ((code =? 0) && negb (overwrite f)); injection Hh as <-;
      [assumption|].
    apply start_transfer_alone. now apply guard_passed.
  - injection Hh as <-. unfold pull_files.
    destruct (transfer_in_flight self) eqn:G; [assumption|].
    destruct items as [|it [|it2 items]]; [assumption | | simpl in Hone; lia].
    destruct (negb (nonempty dst)); [assumption|]. simpl.
    destruct (dst_exists it && negb (pull_overwrite it)); [assumption|].
    apply start_transfer_alone. now apply guard_passed.
  - destruct (handle_keeps_workers self a) as (s & E & Hth & Htw).
    rewrite E in Hh. injection Hh as <-.
    now apply (last_worker_only_same self).
  - injection Hh as <-. intros k th Hk Hth. unfold thread_ends in *. simpl in *.
    rewrite length_stop. apply (Hinv k th); [|assumption].
    now apply (nth_error_stop i).
  - unfold on_transfer_finished in Hh. destruct ok.
    + match type of Hh with refresh_file_list ?s ls = _ =>
        destruct (refresh_file_list_keeps_workers s ls) as (s' & E & Hth & Htw) end.
      rewrite E in Hh. injection Hh as <-.
      now apply (last_worker_only_same self).
    + injection Hh as <-. exact Hinv.
Qed.

(** What [Adb.py] does keep of C4: as long as every push and pull
    transfers at most one file, at most one worker is running at any
    time. *)
Lemma one_transfer_for_single_files (hs : list happening) (self self' : window) :
  last_worker_only self -> Forall one_file hs ->
  happen_all self hs = Returned self' ->
  (running_workers self' <= 1)%nat.
Proof.
  revert self. induction hs as [|h hs IH]; intros self Hinv Hone Hall.
  - injection Hall as <-. now apply last_worker_only_bound.
  - inversion Hone as [|? ? Hh Hrest]; subst. simpl in Hall.
    destruct (happen self h) as [s|e] eqn:E; [|discriminate].
    apply (IH s); [|assumption|assumption].
    now apply (happen_keeps_rule self s h).
Qed.

Lemma idle_window_rule (path : string) : last_worker_only (adb_at path).
Proof. intros i th Hi. now destruct i. Qed.

Lemma single_files_from_idle (path : string) (hs : list happening)
    (self' : window) :
  Forall one_file hs -> happen_all (adb_at path) hs = Returned self' ->
  (running_workers self' <= 1)%nat.
Proof. apply one_transfer_for_single_files, idle_window_rule. Qed.

End OneAtATime.

(** C4 fails in [push_files]: the guard of line 288 is passed once, and
    the loop then starts a worker for each chosen file without waiting, so
    after a push of two new files two workers run. *)
Theorem push_of_two_files_runs_two_workers :
  exists self',
    Adb.AdbFileExplorer.push_files (adb_at "/sdcard")
      [new_file "/home/user/a.bin"; new_file "/home/user/b.bin"] = Returned self' /\
    Adb.AdbFileExplorer.running_workers self' = 2%nat /\
    Adb.AdbFileExplorer.isRunning self' 0 = true /\
    Adb.AdbFileExplorer.isRunning self' 1 = true /\
    Adb.AdbFileExplorer.transfer_worker self' = Some 1%nat.
Proof. eexists. repeat split; reflexivity. Qed.

(* ===================================================================== *)
(** * More about the transfer worker *)
(* ===================================================================== *)

Section WorkerOrder.

Import Adb.TransferWorker.

Lemma after_start_progress (ps : list Z) (ok : bool) (msg : message) :
  after_start (map Progress ps ++ [Finished ok msg]) = true.
Proof.
  induction ps as [|p ps IH]; [reflexivity|].
  destruct ps; simpl in *; exact IH.
Qed.

(** Lines 28 to 38 launch the remote [stat] at most once, and nothing
    else. *)
Lemma total_size_forms (self : worker) (w : world) :
  exists pre,
    (pre = [] \/ pre = [Run]) /\
    ((exists n, total_size self w = (pre, Returned (Some n))) \/
     (exists e, total_size self w = (pre, Raised e)) \/
     (exists msg,
        total_size self w = (pre ++ [Finished false msg], Returned None)%list)).
Proof.
  unfold total_size.
  destruct (operation self =? "push")%string.
  { exists []. split; [now left|].
    destruct (getsize w) as [n|e]; simpl; eauto. }
  destruct (operation self =? "pull")%string.
  2:{ exists []. split; [now left|]. left. now exists 0. }
  destruct (stat w) as [r|e]; simpl.
  2:{ exists []. split; [now left|]. eauto. }
  exists [Run]. split; [now right|].
  destruct (returncode r =? 0); simpl.
  - destruct (int w (strip (stdout r))) as [n|e]; simpl; eauto.
  - right. right. eexists. reflexivity.
Qed.

(** The forms a run can take. *)
Lemma run_forms (self : worker) (w : world) :
  exists pre,
    (pre = [] \/ pre = [Run]) /\
    ((exists ok msg, run self w = (pre ++ [Finished ok msg])%list) \/
     (exists ps ok msg,
        run self w = (pre ++ Popen :: map Progress ps ++ [Finished ok msg])%list)).
Proof.
  unfold run, run_M, run_body.
  destruct (total_size_forms self w) as (pre & Hpre & [[n E] | [[e E] | [msg E]]]);
    rewrite E; clear E; exists pre; (split; [exact Hpre|]).
  - unfold bind. rewrite transfer_spec.
    destruct (popen w) as [process|e].
    + right. destruct (read_lines_spec w n (readline process))
        as (ps & rest & Htr & _).
      destruct (read_lines w n (readline process)) as [tr [[]|e]];
        simpl in Htr; subst tr; simpl.
      * unfold exit_outcome. destruct (wait process =? 0); eauto.
      * exists ps, false, (WithExn "" e). now rewrite <- app_assoc.
    + left. simpl. rewrite app_nil_r. eauto.
  - left. simpl. eauto.
  - left. simpl. rewrite app_nil_r. eauto.
Qed.

End WorkerOrder.

(** X1.  The events of every run come in one order: at most one remote
    [stat], then at most one start of the transfer process, progress
    signals only after that start, and the terminal outcome last. *)
Theorem run_events_in_order (self : Adb.TransferWorker.worker)
    (w : Adb.TransferWorker.world) :
  in_order (Adb.TransferWorker.run self w) = true.
Proof.
  destruct (run_forms self w)
    as (pre & Hpre & [(ok & msg & ->) | (ps & ok & msg & ->)]);
    destruct Hpre as [-> | ->]; simpl; try reflexivity;
    apply after_start_progress.
Qed.

(** X2.  A run reports success only if the transfer process was started
    and has exited with code 0; the text is then the fixed success
    message, and every percentage the process printed was emitted. *)
Theorem success_means_exit_zero (self : Adb.TransferWorker.worker)
    (w : Adb.TransferWorker.world) (msg : message) :
  In (Adb.TransferWorker.Finished true msg) (Adb.TransferWorker.run self w) ->
  exists process,
    Adb.TransferWorker.popen w = Returned process /\
    Adb.TransferWorker.wait process = 0 /\
    msg = Text "Transfer completed successfully." /\
    Adb.TransferWorker.percents (Adb.TransferWorker.run self w)
      = printed (Adb.TransferWorker.readline process).
Proof.
  unfold Adb.TransferWorker.run, Adb.TransferWorker.run_M,
    Adb.TransferWorker.run_body.
  destruct (total_size_forms self w)
    as (pre & Hpre & [[n E] | [[e E] | [m E]]]); rewrite E; clear E.
  - unfold Adb.TransferWorker.bind. rewrite transfer_spec.
    destruct (Adb.TransferWorker.popen w) as [process|e].
    + destruct (read_lines_spec w n (Adb.TransferWorker.readline process))
        as (ps & rest & Htr & Hpr & Hend).
      destruct (Adb.TransferWorker.read_lines w n
                  (Adb.TransferWorker.readline process)) as [tr [[]|e]];
        simpl in Htr, Hend; subst tr; simpl.
      * intros Hin. exists process.
        rewrite (Hend eq_refl), app_nil_r in Hpr.
        assert (Hlast : exit_outcome (Adb.TransferWorker.wait process)
                        = Adb.TransferWorker.Finished true msg).
        { apply in_app_or in Hin as [Hin | Hin].
          - destruct Hpre as [-> | ->]; simpl in Hin;
              [contradiction | destruct Hin as [Hin | []]; discriminate].
          - destruct Hin as [Hin | Hin]; [discriminate|].
            apply in_app_or in Hin as [Hin | [Hin | []]]; [|exact Hin].
            apply in_map_iff in Hin as (p & Hp & _). discriminate. }
        rewrite Hlast. unfold exit_outcome in Hlast.
        destruct (Adb.TransferWorker.wait process =? 0) eqn:Hw;
          [|discriminate].
        injection Hlast as <-. apply Z.eqb_eq in Hw.
        repeat split; [assumption|].
        rewrite percents_app. simpl. rewrite percents_app, percents_progress.
        destruct Hpre as [-> | ->]; simpl; now rewrite app_nil_r.
      * intros Hin. exfalso.
        rewrite <- app_assoc in Hin.
        apply in_app_or in Hin as [Hin | Hin].
        -- destruct Hpre as [-> | ->]; simpl in Hin;
             [contradiction | destruct Hin as [Hin | []]; discriminate].
        -- destruct Hin as [Hin | Hin]; [discriminate|].
           apply in_app_or in Hin as [Hin | [Hin | []]]; [|discriminate].
           apply in_map_iff in Hin as (p & Hp & _). discriminate.
    + simpl. rewrite app_nil_r. intros Hin. exfalso.
      apply in_app_or in Hin as [Hin | [Hin | []]]; [|discriminate].
      destruct Hpre as [-> | ->]; simpl in Hin;
        [contradiction | destruct Hin as [Hin | []]; discriminate].
  - simpl. intros Hin. exfalso.
    apply in_app_or in Hin as [Hin | [Hin | []]]; [|discriminate].
    destruct Hpre as [-> | ->]; simpl in Hin;
      [contradiction | destruct Hin as [Hin | []]; discriminate].
  - simpl. rewrite app_nil_r. intros Hin. exfalso.
    apply in_app_or in Hin as [Hin | [Hin | []]]; [|discriminate].
    destruct Hpre as [-> | ->]; simpl in Hin;
      [contradiction | destruct Hin as [Hin | []]; discriminate].
Qed.

Lemma success_means_exit_zero_witness :
  exists process,
    Adb.TransferWorker.popen
      (transfer_world 1000000 (stat_result 0 "" "")
         ["[ 50%] /sdcard/video.mp4"; "[100%] /sdcard/video.mp4"] 0)
      = Returned process /\
    Adb.TransferWorker.wait process = 0 /\
    Text "Transfer completed successfully."
      = Text "Transfer completed successfully." /\
    Adb.TransferWorker.percents
      (Adb.TransferWorker.run push_worker
         (transfer_world 1000000 (stat_result 0 "" "")
            ["[ 50%] /sdcard/video.mp4"; "[100%] /sdcard/video.mp4"] 0))
      = printed (Adb.TransferWorker.readline process).
Proof.
  apply (success_means_exit_zero push_worker
           (transfer_world 1000000 (stat_result 0 "" "")
              ["[ 50%] /sdcard/video.mp4"; "[100%] /sdcard/video.mp4"] 0)
           (Text "Transfer completed successfully.")).
  simpl. right. right. right. now left.
Defined.

(** X3.  A push whose local file cannot be read fails with the text of
    that error and starts no [adb] process at all. *)
Theorem push_of_unreadable_file (self : Adb.TransferWorker.worker)
    (w : Adb.TransferWorker.world) (e : exn) :
  Adb.TransferWorker.operation self = "push" ->
  Adb.TransferWorker.getsize w = Raised e ->
  Adb.TransferWorker.run self w
    = [Adb.TransferWorker.Finished false (WithExn "" e)].
Proof.
  intros Hop Hsize.
  unfold Adb.TransferWorker.run, Adb.TransferWorker.run_M,
    Adb.TransferWorker.run_body, Adb.TransferWorker.total_size.
  now rewrite Hop, Hsize.
Qed.

Lemma push_of_unreadable_file_witness :
  Adb.TransferWorker.run push_worker
    (unreadable_world (OSError "No such file or directory"))
  = [Adb.TransferWorker.Finished false
       (WithExn "" (OSError "No such file or directory"))].
Proof.
  apply (push_of_unreadable_file push_worker
           (unreadable_world (OSError "No such file or directory")));
    reflexivity.
Defined.

Lemma search_percent_shows (s : string) :
  search_percent s <> None <-> shows_percent s.
Proof.
  split.
  - destruct (search_percent s) as [g|] eqn:E; [|congruence]. intros _.
    destruct (search_percent_sound s g E) as (pre & post & Hs & Hd & Hne).
    now exists pre, g, post.
  - intros (pre & g & post & -> & Hd & Hne).
    now apply search_percent_complete.
Qed.

(** X4.  A line of the subprocess makes the worker act exactly when, once
    stripped, it shows a digit with a percent sign right after it: then
    the worker emits one progress signal with a percentage that is not
    negative, or raises; any other line is passed over in silence. *)
Theorem line_acts_on_percent (w : Adb.TransferWorker.world) (total : Z)
    (raw : string) :
  (shows_percent (strip raw) ->
   exists p,
     0 <= p /\
     (Adb.TransferWorker.read_line w total raw
        = ([Adb.TransferWorker.Progress p], Returned tt) \/
      exists e, Adb.TransferWorker.read_line w total raw = ([], Raised e))) /\
  (~ shows_percent (strip raw) ->
   Adb.TransferWorker.read_line w total raw = ([], Returned tt)).
Proof.
  pose proof (read_line_spec w total raw) as Hspec.
  split; intros H.
  - apply search_percent_shows in H.
    destruct (line_percent raw) as [p|] eqn:E.
    + exists p. split; [now apply (line_percent_nonneg raw) | exact Hspec].
    + exfalso. unfold line_percent in E.
      destruct (search_percent (strip raw)) as [g|] eqn:Hs; [|congruence].
      destruct (search_percent_digits _ _ Hs) as [Hd Hne].
      destruct (int_literal_digits g Hd Hne) as [n [Hn _]]. congruence.
  - destruct (line_percent raw) as [p|] eqn:E; [|exact Hspec].
    exfalso. apply H, search_percent_shows.
    unfold line_percent in E.
    destruct (search_percent (strip raw)); [discriminate | discriminate].
Qed.

(* ===================================================================== *)
(** * More about [check_device] *)
(* ===================================================================== *)

Lemma prefix_nil (s : string) : prefix "" s = true.
Proof. now destruct s. Qed.

(** A word without the character [c] cannot reach beyond a [c]. *)
Lemma prefix_before (c : ascii) (n s t : string) :
  has_char c n = false -> prefix n (s ++ String c t) = prefix n s.
Proof.
  revert s. induction n as [|a n IH]; intros s Hn.
  - now rewrite !prefix_nil.
  - simpl in Hn. apply orb_false_iff in Hn as [Ha Hn].
    destruct s as [|b s].
    + change ("" ++ String c t) with (String c t).
      rewrite prefix_cons, Ha. reflexivity.
    + change (String b s ++ String c t) with (String b (s ++ String c t)).
      rewrite !prefix_cons. destruct (Ascii.eqb a b); [now apply IH | reflexivity].
Qed.

Lemma contains_across (c : ascii) (n s t : string) :
  has_char c n = false ->
  contains n (s ++ String c t) = contains n s || contains n t.
Proof.
  intros Hn. induction s as [|b s IH].
  - pose proof (prefix_before c n "" t Hn) as P.
    change ("" ++ String c t) with (String c t) in P |- *.
    rewrite contains_cons, P.
    cbn [contains]. now rewrite orb_false_r.
  - pose proof (prefix_before c n (String b s) t Hn) as P.
    change (String b s ++ String c t) with (String b (s ++ String c t)) in P |- *.
    now rewrite !contains_cons, IH, P, orb_assoc.
Qed.

Lemma device_lines_join (rows : list (string * string)) (h : string) :
  h ++ chr LF ++ device_lines rows ++ chr LF
  = join (chr LF) (h :: map row_line rows) ++ chr LF ++ chr LF.
Proof.
  revert h. induction rows as [|r rows IH]; intros h; [reflexivity|].
  change (device_lines (r :: rows))
    with (fst r ++ chr TAB ++ snd r ++ chr LF ++ device_lines rows).
  change (join (chr LF) (h :: map row_line (r :: rows)))
    with (h ++ chr LF ++ join (chr LF) (row_line r :: map row_line rows)).
  rewrite !append_assoc. do 2 f_equal.
  rewrite <- (IH (row_line r)). unfold row_line. now rewrite !append_assoc.
Qed.

Lemma lstrip_by_keeps (p : ascii -> bool) (s t : string) (c : ascii) :
  p c = false -> lstrip_by p (s ++ String c t) <> "".
Proof.
  intros Hc. induction s as [|a s IH]; simpl.
  - now rewrite Hc.
  - destruct (p a); [exact IH | discriminate].
Qed.

Lemma plain_row_line (r : string * string) :
  plain_row r ->
  rstrip_by isspace (row_line r) = row_line r /\ row_line r <> "" /\
  has_char LF (row_line r) = false /\
  hd EmptyString (split TAB (row_line r)) = fst r /\
  contains "device" (row_line r) = (snd r =? "device")%string /\
  (snd r = "device" -> nonempty (strip (row_line r)) = true).
Proof.
  destruct r as [serial state]. unfold plain_row, row_line. simpl fst; simpl snd.
  intros (Ht & Hl & Hc & Hl' & Hne & Hr & Hd).
  change (chr TAB ++ state) with (String TAB state).
  assert (Hrs : rstrip_by isspace (serial ++ String TAB state)
                = serial ++ String TAB state).
  { rewrite rstrip_by_app. cbn [rstrip_by]. rewrite Hr.
    destruct state; [congruence | reflexivity]. }
  repeat split.
  - exact Hrs.
  - destruct serial; discriminate.
  - rewrite has_char_app, Hl. simpl. now rewrite Hl'.
  - now rewrite (split_first TAB serial state Ht).
  - rewrite (contains_across TAB "device" serial state eq_refl), Hc. simpl.
    destruct Hd as [-> | Hd]; [reflexivity|].
    rewrite Hd. symmetry. apply String.eqb_neq. intros ->. discriminate.
  - intros ->. unfold strip. rewrite Hrs. apply nonempty_true.
    change (serial ++ String TAB "device")
      with (serial ++ String TAB "devic" ++ "e").
    rewrite <- append_assoc. apply lstrip_by_keeps. reflexivity.
Qed.

(** On a table in which the word occurs only as a state, lines 168 and
    169 take exactly the serials in state [device]. *)
Lemma adb_devices_exact (rows : list (string * string)) :
  Forall plain_row rows ->
  Adb.AdbFileExplorer.devices (devices_output rows) = serials_of_devices rows.
Proof.
  intros H. unfold Adb.AdbFileExplorer.devices, devices_output.
  rewrite device_lines_join.
  set (lines := "List of devices attached" :: map row_line rows).
  assert (Hlines : Forall (fun l => rstrip_by isspace l = l /\ l <> "" /\
                                    has_char LF l = false) lines).
  { constructor; [now repeat split|].
    apply Forall_map. eapply Forall_impl; [|exact H].
    intros r Hr. destruct (plain_row_line r Hr) as (A & B & C & _).
    now repeat split. }
  assert (Hstrip : strip (join (chr LF) lines ++ chr LF ++ chr LF)
                   = join (chr LF) lines).
  { unfold strip.
    rewrite <- append_assoc, !rstrip_by_snoc by reflexivity.
    destruct (rstrip_by_join isspace (chr LF) lines) as [-> _];
      [|discriminate|].
    - eapply Forall_impl; [|exact Hlines]. now intros l (A & B & _).
    - unfold lines. destruct (map row_line rows); [reflexivity|].
      apply (lstrip_by_app isspace "List of devices attached");
        [reflexivity | discriminate]. }
  rewrite Hstrip, split_join; [| |discriminate].
  2:{ eapply Forall_impl; [|exact Hlines]. now intros l (_ & _ & C). }
  unfold lines. simpl tl. clear lines Hlines Hstrip.
  unfold serials_of_devices.
  induction H as [|r rows Hr _ IH]; [reflexivity|].
  destruct (plain_row_line r Hr) as (_ & _ & _ & Hhd & Hc & Hne).
  simpl. rewrite Hc.
  destruct (String.eqb_spec (snd r) "device") as [E|E].
  - rewrite (Hne E). simpl. now rewrite Hhd, IH.
  - rewrite andb_false_r. exact IH.
Qed.

(** X5.  For every table of devices in which the word [device] occurs
    only as a state, [check_device] selects the first device in that
    state and names it in the status label, and with no such device it
    resets the selection to none. *)
Theorem check_device_selects_first (self : Adb.AdbFileExplorer.window)
    (r : CompletedProcess) (rows : list (string * string)) :
  Forall plain_row rows ->
  stdout r = devices_output rows ->
  Adb.AdbFileExplorer.check_device self true (Returned r)
  = match serials_of_devices rows with
    | d :: _ =>
        Adb.AdbFileExplorer.set_device (Some d) (Text ("Device: " ++ d)) self
    | [] =>
        Adb.AdbFileExplorer.set_device None (Text "Device: Not connected") self
    end.
Proof.
  intros Hrows Hout. unfold Adb.AdbFileExplorer.check_device. simpl negb.
  cbv iota. now rewrite Hout, (adb_devices_exact rows Hrows).
Qed.

Lemma check_device_selects_first_witness :
  Adb.AdbFileExplorer.check_device (adb_at "/sdcard") true
    (listing_ok (devices_output [("DEF456", "offline"); ("ABC123", "device")]))
  = Adb.AdbFileExplorer.set_device (Some "ABC123") (Text "Device: ABC123")
      (adb_at "/sdcard").
Proof.
  apply (check_device_selects_first (adb_at "/sdcard")
           {| returncode := 0;
              stdout := devices_output [("DEF456", "offline"); ("ABC123", "device")];
              stderr := "" |}
           [("DEF456", "offline"); ("ABC123", "device")]).
  - repeat constructor; discriminate.
  - reflexivity.
Defined.

(* ===================================================================== *)
(** * What a refresh shows *)
(* ===================================================================== *)

(** The stripped output of [ls -p] splits into the lines of the
    entries. *)
Lemma ls_output_lines (items : list Adb.AdbFileExplorer.list_item) :
  Forall (fun item => listed_name (Adb.AdbFileExplorer.text item)) items ->
  items <> [] ->
  split LF (strip (ls_output items)) = map ls_line items.
Proof.
  intros H Hne. destruct items as [|item rest]; [congruence|]. clear Hne.
  set (items := item :: rest) in *.
  assert (Hplain : Forall (fun it => ls_line it <> "" /\
                                     has_char LF (ls_line it) = false /\
                                     rstrip_by isspace (ls_line it) = ls_line it)
                          items).
  { eapply Forall_impl; [|exact H]. intros it Hit.
    destruct (ls_line_plain it Hit) as (A & B & C & _). now repeat split. }
  rewrite ls_output_join by discriminate.
  assert (Hstrip : strip (join (chr LF) (map ls_line items) ++ chr LF)
                   = join (chr LF) (map ls_line items)).
  { unfold strip. rewrite rstrip_by_snoc by reflexivity.
    destruct (rstrip_by_join isspace (chr LF) (map ls_line items)) as [-> _];
      [|discriminate|].
    - apply Forall_map. eapply Forall_impl; [|exact Hplain].
      intros it (A & _ & C). now split.
    - inversion H as [|? ? Hitem _]; subst.
      destruct (ls_line_plain item Hitem) as (_ & _ & _ & Hl).
      unfold items. destruct rest as [|item2 rest].
      + simpl. rewrite <- (append_nil_r (ls_line item)). apply Hl.
      + apply Hl. }
  rewrite Hstrip. apply split_join; [|discriminate].
  apply Forall_map. eapply Forall_impl; [|exact Hplain].
  now intros it (_ & B & _).
Qed.

Lemma replace_char_without (a b : ascii) (s : string) :
  has_char a s = false -> replace_char a b s = s.
Proof.
  induction s as [|c s IH]; simpl; [reflexivity|].
  intros H. apply orb_false_iff in H as [Hc Hs].
  now rewrite Hc, (IH Hs).
Qed.

(** Lines 215 to 220 on the listing of the root. *)
Lemma tree_children_of_ls_output (entries : list Adb.AdbFileExplorer.list_item) :
  Forall plain_entry entries ->
  Adb.AdbFileExplorer.tree_children Adb.AdbFileExplorer.ROOT (ls_output entries)
  = root_children entries.
Proof.
  intros H. destruct entries as [|e rest] eqn:E; [reflexivity|].
  rewrite <- E in *. unfold Adb.AdbFileExplorer.tree_children.
  rewrite ls_output_lines.
  2:{ eapply Forall_impl; [|exact H]. now intros it [A _]. }
  2:{ rewrite E. discriminate. }
  clear E e rest. unfold root_children.
  induction H as [|it its [Hname Hback] _ IH]; [reflexivity|].
  destruct (ls_line_plain it Hname) as (Hne & _).
  pose proof (ls_line_read it (proj1 Hname)) as Hread.
  assert (Hdir : endswith_char SLASH (ls_line it) = Adb.AdbFileExplorer.is_dir it)
    by (rewrite <- Hread at 2; reflexivity).
  assert (Htext : rstrip_char SLASH (ls_line it) = Adb.AdbFileExplorer.text it)
    by (rewrite <- Hread at 2; reflexivity).
  simpl. apply nonempty_true in Hne. rewrite Hne, Hdir. simpl.
  destruct (Adb.AdbFileExplorer.is_dir it); [|exact IH].
  simpl. rewrite IH, Htext. do 2 f_equal.
  unfold path_join. rewrite (entry_name_relative _ (proj1 Hname)). simpl.
  now rewrite (replace_char_without BACKSLASH SLASH _ Hback).
Qed.

(** X6.  When both listings of a refresh succeed, the window shows what
    the device has: the file list holds exactly the entries of the current
    directory, each with its name and kind, and the tree holds the root
    item followed by the directories of the root, each with its path
    [/sdcard/name]. *)
Theorem refresh_shows_the_device (self : Adb.AdbFileExplorer.window)
    (ls : Adb.AdbFileExplorer.listings) (r1 r2 : CompletedProcess)
    (root_entries entries : list Adb.AdbFileExplorer.list_item) :
  Adb.AdbFileExplorer.truthy (Adb.AdbFileExplorer.device_id self) = true ->
  Adb.AdbFileExplorer.ls_root ls = Returned r1 ->
  returncode r1 = 0 -> stdout r1 = ls_output root_entries ->
  Adb.AdbFileExplorer.ls_current ls = Returned r2 ->
  returncode r2 = 0 -> stdout r2 = ls_output entries ->
  Forall plain_entry root_entries ->
  Forall (fun item => listed_name (Adb.AdbFileExplorer.text item)) entries ->
  Adb.AdbFileExplorer.refresh_file_list self ls
  = Returned
      (Adb.AdbFileExplorer.set_views
         ({| Adb.AdbFileExplorer.label := "/sdcard";
             Adb.AdbFileExplorer.data := "/sdcard" |} :: root_children root_entries)
         entries self).
Proof.
  intros Hdev Hroot Hc1 Ho1 Hcur Hc2 Ho2 Hre He.
  unfold Adb.AdbFileExplorer.refresh_file_list,
    Adb.AdbFileExplorer.populate_tree_item, Adb.AdbFileExplorer.list_current.
  rewrite Hdev, Hroot, Hcur, Hc1, Hc2, Ho1, Ho2. simpl.
  now rewrite (tree_children_of_ls_output root_entries Hre),
    (list_items_of_ls_output entries He).
Qed.

Lemma refresh_shows_the_device_witness :
  Adb.AdbFileExplorer.refresh_file_list (adb_at "/sdcard")
    (listings_ok (ls_output sample_entries))
  = Returned
      (Adb.AdbFileExplorer.set_views
         ({| Adb.AdbFileExplorer.label := "/sdcard";
             Adb.AdbFileExplorer.data := "/sdcard" |} :: root_children sample_entries)
         sample_entries (adb_at "/sdcard")).
Proof.
  apply (refresh_shows_the_device (adb_at "/sdcard")
           (listings_ok (ls_output sample_entries))
           {| returncode := 0; stdout := ls_output sample_entries; stderr := "" |}
           {| returncode := 0; stdout := ls_output sample_entries; stderr := "" |});
    try reflexivity.
  - repeat constructor; discriminate.
  - repeat constructor; discriminate.
Defined.

(* ===================================================================== *)
(** * More about the navigation of [Adb.py] *)
(* ===================================================================== *)

Section AdbOpenAndUp.

Import Adb.AdbFileExplorer.

Lemma all_char_endswith (ch : ascii) (s : string) :
  s <> "" -> all_char ch s = true -> endswith_char ch s = true.
Proof.
  induction s as [|c s IH]; [congruence|]. intros _ H.
  simpl in H. apply andb_true_iff in H as [Hc Hs].
  destruct s as [|c' s']; [exact Hc|].
  change (endswith_char ch (String c (String c' s')))
    with (endswith_char ch (String c' s')).
  now apply IH.
Qed.

Lemma all_char_app (ch : ascii) (s t : string) :
  all_char ch (s ++ t) = all_char ch s && all_char ch t.
Proof.
  induction s as [|c s IH]; simpl; [reflexivity|].
  now rewrite IH, andb_assoc.
Qed.

(** [dirname] undoes [join] with an entry name. *)
Lemma dirname_of_child (p n : string) :
  p <> "" -> endswith_char SLASH p = false -> entry_name n ->
  dirname (p ++ "/" ++ n) = p.
Proof.
  intros Hp Hend [Hne Hno]. unfold dirname.
  change (p ++ "/" ++ n) with (p ++ String SLASH n).
  rewrite fst_rsplit_sep_app, (rsplit_sep_without n Hno). simpl fst.
  assert (Hall : all_char SLASH p = false).
  { destruct (all_char SLASH p) eqn:E; [|reflexivity].
    rewrite (all_char_endswith SLASH p Hp E) in Hend. discriminate. }
  rewrite all_char_app, Hall. simpl.
  assert (Hn : nonempty (p ++ String SLASH "") = true)
    by (destruct p; reflexivity).
  rewrite Hn. simpl. unfold rstrip_char.
  change (String SLASH "") with (chr SLASH).
  rewrite rstrip_by_snoc by reflexivity.
  now apply rstrip_char_fixed.
Qed.

Lemma child_is_not_root (p n : string) :
  p <> "" -> p ++ "/" ++ n <> ROOT.
Proof.
  intros Hp H. destruct p as [|c p]; [congruence|].
  injection H as _ H.
  apply (f_equal (has_char SLASH)) in H.
  rewrite has_char_app in H. simpl in H.
  rewrite orb_true_r in H. discriminate.
Qed.

End AdbOpenAndUp.

(** X7.  In [Adb.py], opening a directory and then going up leads back:
    from a current path that does not end with the separator and has no
    backslash, a double click on a directory item with a proper name sets
    the path to [path/name], and "Up" then restores the path. *)
Theorem adb_open_then_go_up (self : Adb.AdbFileExplorer.window)
    (item : Adb.AdbFileExplorer.list_item) (ls ls' : Adb.AdbFileExplorer.listings) :
  Adb.AdbFileExplorer.is_dir item = true ->
  entry_name (Adb.AdbFileExplorer.text item) ->
  has_char BACKSLASH (Adb.AdbFileExplorer.text item) = false ->
  Adb.AdbFileExplorer.current_path self <> "" ->
  endswith_char SLASH (Adb.AdbFileExplorer.current_path self) = false ->
  has_char BACKSLASH (Adb.AdbFileExplorer.current_path self) = false ->
  exists opened back,
    Adb.AdbFileExplorer.on_file_double_click self item ls = Returned opened /\
    Adb.AdbFileExplorer.current_path opened
      = Adb.AdbFileExplorer.current_path self ++ "/" ++ Adb.AdbFileExplorer.text item /\
    Adb.AdbFileExplorer.go_up opened ls' = Returned back /\
    Adb.AdbFileExplorer.current_path back = Adb.AdbFileExplorer.current_path self.
Proof.
  intros Hdir Hname Hb Hp Hend Hpb.
  remember (Adb.AdbFileExplorer.current_path self) as p eqn:Ep.
  remember (Adb.AdbFileExplorer.text item) as n eqn:En.
  assert (Hjoin : replace_char BACKSLASH SLASH (path_join p n) = p ++ "/" ++ n).
  { unfold path_join. rewrite (entry_name_relative n Hname), Hend.
    apply nonempty_true in Hp. rewrite Hp. simpl.
    apply replace_char_without.
    rewrite has_char_app, Hpb. simpl. exact Hb. }
  unfold Adb.AdbFileExplorer.on_file_double_click. rewrite Hdir.
  rewrite <- Ep, <- En, Hjoin.
  destruct (refresh_file_list_returns
              (Adb.AdbFileExplorer.set_current_path (p ++ "/" ++ n) self) ls)
    as (opened & Eo & Ho).
  change (Adb.AdbFileExplorer.current_path opened = p ++ "/" ++ n) in Ho.
  exists opened.
  unfold Adb.AdbFileExplorer.go_up. rewrite Ho.
  destruct (String.eqb_spec (p ++ "/" ++ n) Adb.AdbFileExplorer.ROOT) as [E|E].
  { now apply child_is_not_root in E. }
  simpl negb. cbv iota.
  destruct (refresh_file_list_returns
              (Adb.AdbFileExplorer.set_current_path (dirname (p ++ "/" ++ n)) opened)
              ls')
    as (back & Eb & Hb').
  change (Adb.AdbFileExplorer.current_path back = dirname (p ++ "/" ++ n)) in Hb'.
  exists back. repeat split; try assumption; try reflexivity.
  rewrite Hb'. now apply dirname_of_child.
Qed.

Lemma adb_open_then_go_up_witness :
  exists opened back,
    Adb.AdbFileExplorer.on_file_double_click (adb_at "/sdcard")
      {| Adb.AdbFileExplorer.text := "DCIM"; Adb.AdbFileExplorer.is_dir := true |}
      (listings_ok "") = Returned opened /\
    Adb.AdbFileExplorer.current_path opened = "/sdcard" ++ "/" ++ "DCIM" /\
    Adb.AdbFileExplorer.go_up opened (listings_ok "") = Returned back /\
    Adb.AdbFileExplorer.current_path back = "/sdcard".
Proof.
  apply (adb_open_then_go_up (adb_at "/sdcard")
           {| Adb.AdbFileExplorer.text := "DCIM"; Adb.AdbFileExplorer.is_dir := true |}
           (listings_ok "") (listings_ok ""));
    try reflexivity; try discriminate.
  split; [discriminate | reflexivity].
Defined.

(* ===================================================================== *)
(** * Deleting and creating *)
(* ===================================================================== *)

Section AdbCommands.

Import Adb.AdbFileExplorer.
Import AdbOps.




End AdbCommands.




(** X10.  A folder that is not created is reported: when the dialog was
    confirmed with a name and [mkdir] does not exit with 0 (it exits with
    another code, cannot be started, or there is no device), the window is
    the old one with exactly one warning more; on an exit code other than
    0 the warning is "Failed to create folder", and the listing is not
    refreshed. *)
Theorem create_folder_reports_failure (self : Adb.AdbFileExplorer.window)
    (name : string) (mkdir : outcome Z) (ls : Adb.AdbFileExplorer.listings) :
  name <> "" ->
  mkdir <> Returned 0 ->
  exists m,
    snd (AdbOps.create_folder self name true mkdir ls)
      = Adb.AdbFileExplorer.warn m self /\
    (forall code d,
       mkdir = Returned code -> Adb.AdbFileExplorer.device_id self = Some d ->
       m = Text "Failed to create folder").
Proof.
  intros Hname Hmk. apply nonempty_true in Hname.
  unfold AdbOps.create_folder, AdbOps.shell. rewrite Hname. simpl andb.
  cbv iota.
  destruct (Adb.AdbFileExplorer.device_id self) as [d|].
  - destruct mkdir as [code|e].
    + destruct (Z.eqb_spec code 0) as [->|Hne]; [congruence|].
      exists (Text "Failed to create folder"). split; [reflexivity | reflexivity].
    + exists (WithExn "" e). split; [reflexivity | discriminate].
  - eexists. split; [reflexivity | discriminate].
Qed.

Lemma create_folder_reports_failure_witness :
  exists m,
    snd (AdbOps.create_folder (adb_at "/sdcard") "Music" true (Returned 1)
           (listings_ok ""))
      = Adb.AdbFileExplorer.warn m (adb_at "/sdcard") /\
    (forall code d,
       Returned 1 = Returned code ->
       Adb.AdbFileExplorer.device_id (adb_at "/sdcard") = Some d ->
       m = Text "Failed to create folder").
Proof.
  apply (create_folder_reports_failure (adb_at "/sdcard") "Music" (Returned 1)
           (listings_ok "")); discriminate.
Defined.

(* ===================================================================== *)
(** * The workers a push and a pull start *)
(* ===================================================================== *)

Section AdbTransfers.

Import Adb.AdbFileExplorer.
Import AdbOps.

Lemma push_loop_threads (self0 : window) (files : list push_choice)
    (self : window) :
  adb_path self = adb_path self0 -> device_id self = device_id self0 ->
  current_path self = current_path self0 ->
  Forall (fun f => exists code, test_e f = Returned code) files ->
  exists self',
    push_loop self (current_path self0) files = Returned self' /\
    threads self'
      = (threads self ++ map (push_thread self0) (filter transferred files))%list /\
    current_path self' = current_path self0.
Proof.
  intros Ha Hd Hc Hall. revert self Ha Hd Hc.
  induction Hall as [|f rest [code Hf] _ IH]; intros self Ha Hd Hc.
  - exists self. simpl. now rewrite app_nil_r.
  - cbn [push_loop filter]. unfold transferred at 1. rewrite Hf.
    destruct ((code =? 0) && negb (overwrite f)); cbn [negb].
    + now apply IH.
    + destruct (IH (start_transfer self "push" (local f)
                      (replace_char BACKSLASH SLASH
                         (path_join (current_path self0) (basename (local f))))))
        as (self' & E & Hth & Hp); [assumption..|].
      exists self'. split; [exact E|]. split; [|exact Hp].
      rewrite Hth. cbn [start_transfer set_transfer threads map].
      rewrite <- app_assoc. unfold push_thread, remote_path.
      now rewrite Ha, Hd.
Qed.

Lemma pull_loop_threads (self0 : window) (dst_dir : string)
    (items : list pull_choice) (self : window) :
  adb_path self = adb_path self0 -> device_id self = device_id self0 ->
  current_path self = current_path self0 ->
  threads (pull_loop self dst_dir items)
    = (threads self ++ map (pull_thread self0 dst_dir) (filter pulled items))%list /\
  current_path (pull_loop self dst_dir items) = current_path self0.
Proof.
  revert self. induction items as [|it rest IH]; intros self Ha Hd Hc.
  - simpl. now rewrite app_nil_r.
  - cbn [pull_loop filter]. unfold pulled at 1.
    destruct (dst_exists it && negb (pull_overwrite it)); cbn [negb].
    + now apply IH.
    + destruct (IH (start_transfer self "pull"
                      (replace_char BACKSLASH SLASH
                         (path_join (current_path self) (text (selected it))))
                      (path_join dst_dir (text (selected it)))))
        as (Hth & Hp); [assumption..|].
      split; [|exact Hp].
      rewrite Hth. cbn [start_transfer set_transfer threads map].
      rewrite <- app_assoc. unfold pull_thread, remote_path.
      now rewrite Ha, Hd, Hc.
Qed.

Lemma refresh_file_list_keeps_transfer (self : window) (ls : listings) :
  exists self',
    refresh_file_list self ls = Returned self' /\
    push_button self' = push_button self /\
    pull_button self' = pull_button self /\
    progress_bar self' = progress_bar self /\
    progress_label self' = progress_label self.
Proof.
  unfold refresh_file_list.
  destruct (truthy (device_id self)); simpl; [|now exists self].
  unfold list_current.
  destruct (ls_current ls) as [r|e].
  - destruct (returncode r =? 0); eexists; repeat split; reflexivity.
  - eexists; repeat split; reflexivity.
Qed.

(** Progress that is shown leaves no trace once the outcome arrives. *)
Lemma deliver_progress (render : Z -> string) (ls : listings)
    (ps : list Z) (ok : bool) (msg : message) (self : window) :
  deliver_all render ls self
    (map Adb.TransferWorker.Progress ps ++ [Adb.TransferWorker.Finished ok msg])
  = on_transfer_finished self ok msg ls.
Proof.
  revert self. induction ps as [|p ps IH]; intros self.
  - simpl. now destruct (on_transfer_finished self ok msg ls).
  - simpl. rewrite IH. reflexivity.
Qed.

End AdbTransfers.

(** X11.  When no transfer is in flight and every remote [test -e] can be
    run, [push_files] starts one worker for each chosen file, in order,
    except the files that exist on the device and that the user declines
    to overwrite: each worker pushes the local file to its base name in
    the current directory; the current path is unchanged. *)
Theorem push_files_starts_a_worker_each (self : Adb.AdbFileExplorer.window)
    (files : list Adb.AdbFileExplorer.push_choice) :
  Adb.AdbFileExplorer.transfer_in_flight self = false ->
  Forall (fun f => exists code, Adb.AdbFileExplorer.test_e f = Returned code)
         files ->
  exists self',
    Adb.AdbFileExplorer.push_files self files = Returned self' /\
    Adb.AdbFileExplorer.threads self'
      = (Adb.AdbFileExplorer.threads self
         ++ map (AdbOps.push_thread self) (filter AdbOps.transferred files))%list /\
    Adb.AdbFileExplorer.current_path self' = Adb.AdbFileExplorer.current_path self.
Proof.
  intros Hguard Hall. unfold Adb.AdbFileExplorer.push_files. rewrite Hguard.
  destruct files as [|f rest].
  - exists self. simpl. now rewrite app_nil_r.
  - now apply push_loop_threads.
Qed.

Lemma push_files_starts_a_worker_each_witness :
  exists self',
    Adb.AdbFileExplorer.push_files (adb_at "/sdcard")
      [new_file "/home/user/a.bin";
       {| Adb.AdbFileExplorer.local := "/home/user/b.bin";
          Adb.AdbFileExplorer.test_e := Returned 0;
          Adb.AdbFileExplorer.overwrite := false |}] = Returned self' /\
    Adb.AdbFileExplorer.threads self'
      = [AdbOps.push_thread (adb_at "/sdcard") (new_file "/home/user/a.bin")] /\
    Adb.AdbFileExplorer.current_path self' = "/sdcard".
Proof.
  apply (push_files_starts_a_worker_each (adb_at "/sdcard")
           [new_file "/home/user/a.bin";
            {| Adb.AdbFileExplorer.local := "/home/user/b.bin";
               Adb.AdbFileExplorer.test_e := Returned 0;
               Adb.AdbFileExplorer.overwrite := false |}]).
  - reflexivity.
  - repeat constructor; eexists; reflexivity.
Defined.

(** X12.  When no transfer is in flight and a destination directory was
    chosen, [pull_files] starts one worker for each selected item, in
    order, except the items whose destination exists and that the user
    declines to overwrite: each worker pulls the entry of the current
    directory to the item's name in the destination directory; without a
    destination directory nothing is started. *)
Theorem pull_files_starts_a_worker_each (self : Adb.AdbFileExplorer.window)
    (items : list Adb.AdbFileExplorer.pull_choice) (dst_dir : string) :
  Adb.AdbFileExplorer.transfer_in_flight self = false ->
  (dst_dir <> "" ->
   Adb.AdbFileExplorer.threads (Adb.AdbFileExplorer.pull_files self items dst_dir)
     = (Adb.AdbFileExplorer.threads self
        ++ map (AdbOps.pull_thread self dst_dir) (filter AdbOps.pulled items))%list) /\
  (dst_dir = "" -> Adb.AdbFileExplorer.pull_files self items dst_dir = self) /\
  Adb.AdbFileExplorer.current_path (Adb.AdbFileExplorer.pull_files self items dst_dir)
    = Adb.AdbFileExplorer.current_path self.
Proof.
  intros Hguard. unfold Adb.AdbFileExplorer.pull_files. rewrite Hguard.
  destruct items as [|it rest].
  - repeat split; try reflexivity. intros _. simpl. now rewrite app_nil_r.
  - destruct (pull_loop_threads self dst_dir (it :: rest) self
                eq_refl eq_refl eq_refl) as [Hth Hp].
    split; [|split].
    + intros Hd. apply nonempty_true in Hd. rewrite Hd. exact Hth.
    + intros ->. reflexivity.
    + destruct (negb (nonempty dst_dir)); [reflexivity | exact Hp].
Qed.

Lemma pull_files_starts_a_worker_each_witness :
  Adb.AdbFileExplorer.current_path
    (Adb.AdbFileExplorer.pull_files (adb_at "/sdcard")
       [{| Adb.AdbFileExplorer.selected :=
             {| Adb.AdbFileExplorer.text := "notes.txt";
                Adb.AdbFileExplorer.is_dir := false |};
           Adb.AdbFileExplorer.dst_exists := false;
           Adb.AdbFileExplorer.pull_overwrite := false |}] "/home/user")
  = "/sdcard".
Proof.
  apply (pull_files_starts_a_worker_each (adb_at "/sdcard")
           [{| Adb.AdbFileExplorer.selected :=
                 {| Adb.AdbFileExplorer.text := "notes.txt";
                    Adb.AdbFileExplorer.is_dir := false |};
               Adb.AdbFileExplorer.dst_exists := false;
               Adb.AdbFileExplorer.pull_overwrite := false |}] "/home/user").
  reflexivity.
Defined.

(** X13.  A whole run seen from the window: when the signals of any run
    are delivered in order, the window ends as if only the terminal
    outcome had been delivered; both buttons are enabled again, the bar
    shows 100 after a success and 0 after a failure, and the label shows
    the message of the outcome. *)
Theorem window_after_a_run (self : Adb.AdbFileExplorer.window)
    (worker : Adb.TransferWorker.worker) (w : Adb.TransferWorker.world)
    (render : Z -> string) (ls : Adb.AdbFileExplorer.listings) :
  exists pre ok msg self',
    Adb.TransferWorker.run worker w
      = (pre ++ [Adb.TransferWorker.Finished ok msg])%list /\
    AdbOps.deliver_all render ls self (Adb.TransferWorker.run worker w)
      = Returned self' /\
    Adb.AdbFileExplorer.on_transfer_finished self ok msg ls = Returned self' /\
    Adb.AdbFileExplorer.push_button self' = true /\
    Adb.AdbFileExplorer.pull_button self' = true /\
    Adb.AdbFileExplorer.progress_bar self' = (if ok then 100 else 0) /\
    Adb.AdbFileExplorer.progress_label self' = msg.
Proof.
  assert (Hfin : forall ok msg,
            exists self',
              Adb.AdbFileExplorer.on_transfer_finished self ok msg ls
                = Returned self' /\
              Adb.AdbFileExplorer.push_button self' = true /\
              Adb.AdbFileExplorer.pull_button self' = true /\
              Adb.AdbFileExplorer.progress_bar self' = (if ok then 100 else 0) /\
              Adb.AdbFileExplorer.progress_label self' = msg).
  { intros ok msg. unfold Adb.AdbFileExplorer.on_transfer_finished.
    destruct ok; [|eexists; repeat split; reflexivity].
    destruct (refresh_file_list_keeps_transfer
                (Adb.AdbFileExplorer.set_transfer
                   (Adb.AdbFileExplorer.transfer_worker self)
                   (Adb.AdbFileExplorer.threads self) true true 100 msg self) ls)
      as (self' & E & H1 & H2 & H3 & H4).
    exists self'. now repeat split. }
  destruct (run_forms worker w)
    as (pre & Hpre & [(ok & msg & E) | (ps & ok & msg & E)]);
    destruct (Hfin ok msg) as (self' & Ef & Hrest).
  - exists pre, ok, msg, self'. split; [exact E|]. split; [|now split].
    rewrite E, <- Ef.
    destruct Hpre as [-> | ->]; simpl;
      now destruct (Adb.AdbFileExplorer.on_transfer_finished self ok msg ls).
  - exists (pre ++ Adb.TransferWorker.Popen :: map Adb.TransferWorker.Progress ps)%list,
           ok, msg, self'.
    split; [rewrite E, <- app_assoc; reflexivity|]. split; [|now split].
    rewrite E, <- Ef.
    destruct Hpre as [-> | ->]; simpl; apply deliver_progress.
Qed.

(** X14.  The guard of lines 288 and 307 keeps one transfer at a time as
    long as every push and pull has at most one file: from a window in
    which only the worker started last can be running, after any pushes,
    pulls, navigation, ends of threads and deliveries of outcomes of this
    kind at most one worker is running, and it is the one the window
    refers to. *)
Theorem guard_keeps_one_transfer (self self' : Adb.AdbFileExplorer.window)
    (hs : list Adb.AdbFileExplorer.happening) :
  last_worker_only self ->
  Forall one_file hs ->
  Adb.AdbFileExplorer.happen_all self hs = Returned self' ->
  last_worker_only self' /\ (Adb.AdbFileExplorer.running_workers self' <= 1)%nat.
Proof.
  intros Hinv Hone Hall.
  enough (last_worker_only self')
    by (split; [assumption | now apply last_worker_only_bound]).
  revert self Hinv Hall. induction Hone as [|h hs Hh _ IH]; intros self Hinv Hall.
  - simpl in Hall. now injection Hall as <-.
  - simpl in Hall.
    destruct (Adb.AdbFileExplorer.happen self h) as [s|e] eqn:E; [|discriminate].
    apply (IH s); [|assumption].
    now apply (happen_keeps_rule self s h).
Qed.

Lemma guard_keeps_one_transfer_witness :
  exists self',
    Adb.AdbFileExplorer.happen_all (adb_at "/sdcard")
      [Adb.AdbFileExplorer.Push [new_file "/home/user/a.bin"];
       Adb.AdbFileExplorer.Push [new_file "/home/user/b.bin"];
       Adb.AdbFileExplorer.ThreadEnds 0;
       Adb.AdbFileExplorer.Push [new_file "/home/user/c.bin"]] = Returned self' /\
    last_worker_only self' /\
    (Adb.AdbFileExplorer.running_workers self' <= 1)%nat.
Proof.
  eexists. split; [reflexivity|].
  apply (guard_keeps_one_transfer (adb_at "/sdcard") _
           [Adb.AdbFileExplorer.Push [new_file "/home/user/a.bin"];
            Adb.AdbFileExplorer.Push [new_file "/home/user/b.bin"];
            Adb.AdbFileExplorer.ThreadEnds 0;
            Adb.AdbFileExplorer.Push [new_file "/home/user/c.bin"]]).
  - intros i th Hi. now destruct i.
  - repeat constructor.
  - reflexivity.
Defined.

(* ===================================================================== *)
(** * [main.py]: devices, navigation, clipboard and deletion *)
(* ===================================================================== *)

(** X15.  [load_devices] of [main.py] on a table of devices: the combo
    box shows exactly the serials in state [device], in order; the first
    becomes the current device and no box is shown; when there is none, the
    current device is kept and one warning is shown; the current path is
    not touched. *)
Theorem load_devices_selects_first (self : Main.gui)
    (rows : list (string * string)) :
  Forall device_row rows ->
  Main.device_combo (Main.load_devices self (listing_ok (devices_output rows)))
    = serials_of_devices rows /\
  Main.current_path (Main.load_devices self (listing_ok (devices_output rows)))
    = Main.current_path self /\
  (forall d ds,
     serials_of_devices rows = d :: ds ->
     Main.current_device
       (Main.load_devices self (listing_ok (devices_output rows))) = Some d /\
     Main.boxes (Main.load_devices self (listing_ok (devices_output rows)))
       = Main.boxes self) /\
  (serials_of_devices rows = [] ->
   Main.current_device
     (Main.load_devices self (listing_ok (devices_output rows)))
     = Main.current_device self /\
   Main.boxes (Main.load_devices self (listing_ok (devices_output rows)))
     = (Main.boxes self ++ [Text "No Android device detected"])%list).
Proof.
  intros Hrows. unfold Main.load_devices, listing_ok, Main.check_output.
  cbn [returncode stdout Z.eqb].
  rewrite (main_devices_exact rows Hrows).
  destruct (serials_of_devices rows) as [|d ds].
  - split; [reflexivity|]. split; [reflexivity|]. split; [discriminate|].
    intros _. split; reflexivity.
  - split; [reflexivity|]. split; [reflexivity|]. split; [|discriminate].
    intros d' ds' [= <- <-]. split; reflexivity.
Qed.

Lemma load_devices_selects_first_witness :
  Main.device_combo
    (Main.load_devices (main_at "/sdcard/")
       (listing_ok (devices_output [("ABC123", "device"); ("DEF456", "offline")])))
  = ["ABC123"].
Proof.
  apply (load_devices_selects_first (main_at "/sdcard/")
           [("ABC123", "device"); ("DEF456", "offline")]).
  repeat constructor; try discriminate; right; reflexivity.
Defined.

Section MainNavigation.

Lemma append_same (a b : string) : a ++ b = a -> b = "".
Proof.
  induction a as [|c a IH]; simpl; [easy|].
  intros [= H]. now apply IH.
Qed.

Lemma list_last_or_nil {A : Type} (l : list A) :
  l = [] \/ exists front x, l = (front ++ [x])%list.
Proof.
  destruct l as [|a l]; [now left | right].
  destruct (exists_last (l := a :: l)) as (front & x & E); [discriminate|].
  now exists front, x.
Qed.

Lemma main_handle_device (self : Main.gui) (a : Main.action) :
  Main.current_device (Main.handle self a) = Main.current_device self.
Proof.
  assert (R : forall g ls,
            Main.current_device (Main.refresh_files g ls) = Main.current_device g).
  { intros g ls. unfold Main.refresh_files.
    destruct (Main.adb_shell _ ls); reflexivity. }
  destruct a as [name probe ls | ls]; simpl.
  - unfold Main.open_item. destruct (Main.adb_shell self probe);
      [now rewrite R | reflexivity].
  - unfold Main.go_up. destruct (negb _); [now rewrite R | reflexivity].
Qed.

Lemma main_handle_all_device (acts : list Main.action) (self : Main.gui) :
  Main.current_device (Main.handle_all self acts) = Main.current_device self.
Proof.
  revert self. induction acts as [|a acts IH]; intros self; [reflexivity|].
  unfold Main.handle_all in *. simpl. now rewrite IH, main_handle_device.
Qed.

(** Opening directory after directory appends their names. *)
Lemma main_opens (downs : list Main.action) (names : list string)
    (self : Main.gui) (d : string) :
  Forall2 opens_dir downs names ->
  Main.current_device self = Some d ->
  Main.current_path (Main.handle_all self downs)
    = Main.current_path self ++ dirs names.
Proof.
  intros H. revert self. induction H as [|a n downs names Ha _ IH]; intros self Hd.
  - simpl. now rewrite append_nil_r.
  - destruct Ha as (p & ls & -> & Hp).
    unfold Main.handle_all in *. cbn [fold_left Main.handle].
    rewrite IH
      by exact (eq_trans
                  (main_handle_device self (Main.OpenItem n (Returned p) ls)) Hd).
    rewrite main_open_item_path. unfold Main.adb_shell, Main.check_output.
    rewrite Hd, Hp. cbn [Z.eqb dirs].
    now rewrite !append_assoc.
Qed.

(** Each [go_up] drops the last directory, and none at the root. *)
Lemma main_ups (ups : list Main.action) (names : list string) (self : Main.gui) :
  Forall goes_up ups ->
  Forall entry_name names ->
  Main.current_path self = Main.ANDROID_ROOT ++ dirs names ->
  Main.current_path (Main.handle_all self ups)
    = Main.ANDROID_ROOT
      ++ dirs (firstn (List.length names - List.length ups) names).
Proof.
  intros Hu. revert names self.
  induction Hu as [|a ups [ls ->] _ IH]; intros names self Hn Hp.
  - simpl. now rewrite Nat.sub_0_r, firstn_all.
  - unfold Main.handle_all in *. cbn [fold_left Main.handle].
    destruct (list_last_or_nil names) as [-> | (front & n & ->)].
    + rewrite (IH [] (Main.go_up self ls)); [reflexivity | constructor |].
      rewrite main_go_up_path, Hp. reflexivity.
    + apply Forall_app in Hn as [Hfront Hlast].
      inversion Hlast as [|? ? Hname _]; subst.
      rewrite (IH front (Main.go_up self ls)); [|assumption|].
      * rewrite length_app. cbn [List.length].
        replace (List.length front + 1 - S (List.length ups))%nat
          with (List.length front - List.length ups)%nat by lia.
        rewrite firstn_app.
        replace (List.length front - List.length ups - List.length front)%nat
          with 0%nat by lia.
        cbn [firstn]. now rewrite app_nil_r.
      * rewrite main_go_up_path, Hp, dirs_app. cbn [dirs].
        rewrite append_nil_r.
        destruct (String.eqb_spec (Main.ANDROID_ROOT ++ dirs front ++ n ++ "/")
                                  Main.ANDROID_ROOT) as [E|_].
        { apply append_same in E. destruct Hname as [Hne _]. exfalso.
          destruct (dirs front); [|discriminate].
          destruct n; [congruence | discriminate]. }
        rewrite <- append_assoc.
        apply parent_of_child; [|assumption].
        now apply endswith_dirs.
Qed.

End MainNavigation.

(** X16.  The depth of the current path of [main.py] follows the
    navigation: from a path below the root, opening directories that the
    device lists and then going up [k] times leads to the path of the
    names opened so far without the last [k], and to the root when [k] is
    larger than their number; as many steps up as directories opened lead
    back to the path of the start. *)
Theorem down_and_up_again (self : Main.gui) (d : string)
    (pre names : list string) (downs ups : list Main.action) :
  Main.current_device self = Some d ->
  Main.current_path self = Main.ANDROID_ROOT ++ dirs pre ->
  Forall entry_name pre -> Forall entry_name names ->
  Forall2 opens_dir downs names -> Forall goes_up ups ->
  Main.current_path (Main.handle_all self downs)
    = Main.current_path self ++ dirs names /\
  Main.current_path (Main.handle_all self (downs ++ ups))
    = Main.ANDROID_ROOT
      ++ dirs (firstn (List.length (pre ++ names) - List.length ups)
                      (pre ++ names)) /\
  (List.length ups = List.length names ->
   Main.current_path (Main.handle_all self (downs ++ ups))
     = Main.current_path self).
Proof.
  intros Hd Hp Hpre Hnames Hdowns Hups.
  pose proof (main_opens downs names self d Hdowns Hd) as Hdown.
  assert (Hall : Main.current_path (Main.handle_all self (downs ++ ups))
                 = Main.ANDROID_ROOT
                   ++ dirs (firstn (List.length (pre ++ names) - List.length ups)
                                   (pre ++ names))).
  { unfold Main.handle_all. rewrite fold_left_app.
    apply (main_ups ups (pre ++ names) (fold_left Main.handle downs self));
      [assumption | now apply Forall_app |].
    fold (Main.handle_all self downs).
    now rewrite Hdown, Hp, dirs_app, append_assoc. }
  split; [exact Hdown|]. split; [exact Hall|].
  intros Hlen. rewrite Hall, Hp, length_app, Hlen.
  replace (List.length pre + List.length names - List.length names)%nat
    with (List.length pre + 0)%nat by lia.
  now rewrite firstn_app_2, app_nil_r.
Qed.

Lemma down_and_up_again_witness :
  Main.current_path
    (Main.handle_all (main_at "/sdcard/")
       ([Main.OpenItem "DCIM" (listing_ok "Camera") (listing_ok "Camera");
         Main.OpenItem "Camera" (listing_ok "") (listing_ok "")]
        ++ [Main.GoUp (listing_ok "Camera"); Main.GoUp listing_denied]))
  = "/sdcard/".
Proof.
  apply (down_and_up_again (main_at "/sdcard/") "ABC123" [] ["DCIM"; "Camera"]
           [Main.OpenItem "DCIM" (listing_ok "Camera") (listing_ok "Camera");
            Main.OpenItem "Camera" (listing_ok "") (listing_ok "")]
           [Main.GoUp (listing_ok "Camera"); Main.GoUp listing_denied]).
  - reflexivity.
  - reflexivity.
  - constructor.
  - repeat constructor; discriminate.
  - repeat constructor; eexists; eexists; split; reflexivity.
  - repeat constructor; eexists; reflexivity.
  - reflexivity.
Defined.

Lemma splitlines_names (names : list string) :
  Forall line_name names -> splitlines (names_output names) = names.
Proof.
  induction 1 as [|n names Hn _ IH]; [reflexivity|].
  cbn [names_output].
  change (n ++ chr LF ++ names_output names)
    with (n ++ String LF (names_output names)).
  now rewrite (splitlines_line n _ Hn), IH.
Qed.

(** X17.  What [refresh_files] of [main.py] shows: with a device chosen
    and a listing that succeeds, the tree holds exactly the names the
    device printed, a line each and in order, and the label shows the
    current path; the path, the device and the boxes are as before. *)
Theorem refresh_files_shows_the_names (self : Main.gui) (d : string)
    (names : list string) :
  Main.current_device self = Some d ->
  Forall line_name names ->
  Main.tree (Main.refresh_files self (listing_ok (names_output names))) = names /\
  Main.path_label (Main.refresh_files self (listing_ok (names_output names)))
    = Main.current_path self /\
  Main.current_path (Main.refresh_files self (listing_ok (names_output names)))
    = Main.current_path self /\
  Main.boxes (Main.refresh_files self (listing_ok (names_output names)))
    = Main.boxes self.
Proof.
  intros Hd Hn. unfold Main.refresh_files, Main.adb_shell, listing_ok,
    Main.check_output.
  cbn [Main.set_tree Main.current_device returncode stdout Z.eqb].
  rewrite Hd. cbn [Main.set_tree Main.tree Main.path_label Main.current_path
                   Main.boxes].
  now rewrite (splitlines_names names Hn).
Qed.

Lemma refresh_files_shows_the_names_witness :
  Main.tree (Main.refresh_files (main_at "/sdcard/")
               (listing_ok (names_output ["DCIM"; "notes.txt"])))
  = ["DCIM"; "notes.txt"].
Proof.
  apply (refresh_files_shows_the_names (main_at "/sdcard/") "ABC123"
           ["DCIM"; "notes.txt"]).
  - reflexivity.
  - repeat constructor.
Defined.

Section MainCommands.

Lemma snd_rsplit_sep_app (a r : string) :
  snd (rsplit_sep (a ++ String SLASH r)) = snd (rsplit_sep r).
Proof.
  induction a as [|c a IH].
  - simpl. destruct (has_char SLASH r) eqn:Hr.
    + now destruct (rsplit_sep r).
    + now rewrite (rsplit_sep_without r Hr).
  - simpl. rewrite has_char_app. simpl. rewrite orb_true_r.
    destruct (rsplit_sep (a ++ String SLASH r)). simpl in *. exact IH.
Qed.

(** The base name of an entry of a directory is its name. *)
Lemma basename_of_child (p n : string) :
  endswith_char SLASH p = true -> has_char SLASH n = false ->
  basename (p ++ n) = n.
Proof.
  intros Hp Hn. apply endswith_char_spec in Hp as [a ->].
  unfold basename. rewrite append_assoc.
  change (chr SLASH ++ n) with (String SLASH n).
  now rewrite snd_rsplit_sep_app, (rsplit_sep_without n Hn).
Qed.

Lemma child_not_falsy (p n : string) :
  n <> "" -> MainOps.falsy (Some (p ++ n)) = false.
Proof.
  intros Hn. simpl. destruct p; simpl; [|reflexivity].
  apply nonempty_true in Hn. now rewrite Hn.
Qed.

(** A paste of the entry [name] taken at path [p]. *)
Lemma paste_of_entry (d : MainOps.desk) (dev p name : string) (code : Z)
    (ls : outcome CompletedProcess) :
  Main.current_device (MainOps.gui d) = Some dev ->
  MainOps.clipboard d = Some (p ++ name) ->
  endswith_char SLASH p = true -> entry_name name ->
  MainOps.paste d (Returned code) ls
  = ([main_command dev
        (if MainOps.is_copy (MainOps.clipboard_mode d)
         then ["cp"; "-r"; p ++ name; Main.current_path (MainOps.gui d) ++ name]
         else ["mv"; p ++ name; Main.current_path (MainOps.gui d) ++ name])],
     Returned {| MainOps.gui := Main.refresh_files (MainOps.gui d) ls;
                 MainOps.clipboard := Some (p ++ name);
                 MainOps.clipboard_mode := MainOps.clipboard_mode d |}).
Proof.
  intros Hd Hc Hp [Hne Hslash]. unfold MainOps.paste. rewrite Hc.
  rewrite (child_not_falsy p name Hne), (basename_of_child p name Hp Hslash).
  unfold MainOps.shell. rewrite Hd. reflexivity.
Qed.

End MainCommands.

(** X18.  Copy or cut, then paste: an entry taken in one directory and
    pasted after any navigation is copied with [cp -r], or moved with
    [mv], from its path to the same name in the directory shown at the
    time of the paste, by one command; the paste keeps the clipboard, so
    a second paste repeats the command; the current path is that of the
    time of the paste. *)
Theorem paste_takes_entry_to_current_directory (d : MainOps.desk)
    (dev name : string) (others : list string) (acts : list Main.action)
    (code : Z) (ls : outcome CompletedProcess) :
  Main.current_device (MainOps.gui d) = Some dev ->
  endswith_char SLASH (Main.current_path (MainOps.gui d)) = true ->
  entry_name name ->
  fst (MainOps.paste (MainOps.navigate (MainOps.copy d (name :: others)) acts)
         (Returned code) ls)
    = [main_command dev
         ["cp"; "-r"; Main.current_path (MainOps.gui d) ++ name;
          Main.current_path (Main.handle_all (MainOps.gui d) acts) ++ name]] /\
  fst (MainOps.paste (MainOps.navigate (MainOps.cut d (name :: others)) acts)
         (Returned code) ls)
    = [main_command dev
         ["mv"; Main.current_path (MainOps.gui d) ++ name;
          Main.current_path (Main.handle_all (MainOps.gui d) acts) ++ name]] /\
  forall take,
    take = MainOps.copy \/ take = MainOps.cut ->
    exists d',
      snd (MainOps.paste (MainOps.navigate (take d (name :: others)) acts)
             (Returned code) ls) = Returned d' /\
      MainOps.clipboard d' = Some (Main.current_path (MainOps.gui d) ++ name) /\
      MainOps.clipboard_mode d'
        = MainOps.clipboard_mode (take d (name :: others)) /\
      Main.current_path (MainOps.gui d')
        = Main.current_path (Main.handle_all (MainOps.gui d) acts).
Proof.
  intros Hd Hp Hn.
  assert (Hdev : Main.current_device (Main.handle_all (MainOps.gui d) acts)
                 = Some dev) by now rewrite main_handle_all_device.
  assert (P : forall take,
            take = MainOps.copy \/ take = MainOps.cut ->
            MainOps.paste (MainOps.navigate (take d (name :: others)) acts)
              (Returned code) ls
            = ([main_command dev
                  (if MainOps.is_copy
                        (MainOps.clipboard_mode (take d (name :: others)))
                   then ["cp"; "-r"; Main.current_path (MainOps.gui d) ++ name;
                         Main.current_path (Main.handle_all (MainOps.gui d) acts)
                         ++ name]
                   else ["mv"; Main.current_path (MainOps.gui d) ++ name;
                         Main.current_path (Main.handle_all (MainOps.gui d) acts)
                         ++ name])],
               Returned
                 {| MainOps.gui :=
                      Main.refresh_files (Main.handle_all (MainOps.gui d) acts) ls;
                    MainOps.clipboard :=
                      Some (Main.current_path (MainOps.gui d) ++ name);
                    MainOps.clipboard_mode :=
                      MainOps.clipboard_mode (take d (name :: others)) |})).
  { intros take [-> | ->].
    - exact (paste_of_entry
               (MainOps.navigate (MainOps.copy d (name :: others)) acts) dev
               (Main.current_path (MainOps.gui d)) name code ls
               Hdev eq_refl Hp Hn).
    - exact (paste_of_entry
               (MainOps.navigate (MainOps.cut d (name :: others)) acts) dev
               (Main.current_path (MainOps.gui d)) name code ls
               Hdev eq_refl Hp Hn). }
  split; [now rewrite (P MainOps.copy (or_introl eq_refl))|].
  split; [now rewrite (P MainOps.cut (or_intror eq_refl))|].
  intros take Htake. rewrite (P take Htake). eexists. split; [reflexivity|].
  cbn [MainOps.clipboard MainOps.clipboard_mode MainOps.gui].
  now rewrite main_refresh_path.
Qed.

Lemma paste_takes_entry_to_current_directory_witness :
  fst (MainOps.paste
         (MainOps.navigate
            (MainOps.copy {| MainOps.gui := main_at "/sdcard/";
                             MainOps.clipboard := None;
                             MainOps.clipboard_mode := None |}
                          ["notes.txt"])
            [Main.OpenItem "DCIM" (listing_ok "") (listing_ok "")])
         (Returned 0) (listing_ok "notes.txt"))
  = [["adb"; "-s"; "ABC123"; "shell"; "cp"; "-r"; "/sdcard/notes.txt";
      "/sdcard/DCIM/notes.txt"]].
Proof.
  apply (paste_takes_entry_to_current_directory
           {| MainOps.gui := main_at "/sdcard/"; MainOps.clipboard := None;
              MainOps.clipboard_mode := None |}
           "ABC123" "notes.txt" []
           [Main.OpenItem "DCIM" (listing_ok "") (listing_ok "")]
           0 (listing_ok "notes.txt")).
  - reflexivity.
  - reflexivity.
  - split; [discriminate | reflexivity].
Defined.


